(** * The support-chat application: fallback engine, AI adapter and views

    A shallow embedding of [chat/utils.py] and [chat/views.py].

    Python [str] values are [string]s holding the UTF-8 encoding of the text
    (substring search on UTF-8 agrees with substring search on code points).
    Code that may raise runs in the monad [M], which threads the [World]
    (database tables, the generative-AI client, the log of prompts sent) and
    carries either a value or the exception raised. *)

From Stdlib Require Import ZArith List String Ascii Bool Lia.
From Stdlib Require Import Sorting.Sorted Sorting.Permutation DecimalString.
Import ListNotations.

Open Scope string_scope.
Open Scope Z_scope.

(** ** Python values and builtins *)

Module Py.

(** The exceptions the modelled code can meet; each carries [str(e)]. *)
Inductive exn : Type :=
| AttributeError (msg : string)
| ValueError (msg : string)
| TypeError (msg : string)
| IntegrityError (msg : string)
| ServiceError (msg : string).

Definition exn_str (e : exn) : string :=
  match e with
  | AttributeError m | ValueError m | TypeError m | IntegrityError m
  | ServiceError m => m
  end.

Inductive result (A : Type) : Type :=
| Return (a : A)
| Raise (e : exn).
Arguments Return {A} a.
Arguments Raise {A} e.

(** The newline and the double quote, which a string literal cannot hold. *)
Definition nl : string := String (ascii_of_nat 10) EmptyString.
Definition dquote : string := String (ascii_of_nat 34) EmptyString.

(** [needle in hay] on [str]. *)
Fixpoint contains (needle hay : string) : bool :=
  prefix needle hay ||
  match hay with
  | EmptyString => false
  | String _ rest => contains needle rest
  end.

(** [any(f(x) for x in xs)]. *)
Definition any {A : Type} (f : A -> bool) (xs : list A) : bool := existsb f xs.

(** [sep.join(parts)]. *)
Definition join (sep : string) (parts : list string) : string :=
  String.concat sep parts.

(** [str(n)] and [f"{n}"] for an [int]. *)
Definition str_of_int (n : Z) : string := NilZero.string_of_int (Z.to_int n).

(** An optional [str] under [if value:]: the value when it is truthy,
    [None] and [''] being falsy. *)
Definition truthy_str (value : option string) : option string :=
  match value with
  | Some (String _ _ as s) => Some s
  | _ => None
  end.

(** An optional [int] under [if value:]: [None] and [0] are falsy. *)
Definition truthy_int (value : option Z) : option Z :=
  match value with
  | Some n => if n =? 0 then None else Some n
  | None => None
  end.

Definition no_attribute (type_name attr : string) : exn :=
  AttributeError ("'" ++ type_name ++ "' object has no attribute '" ++ attr ++ "'").

End Py.
Import Py.

(** ** The tables of the store and of the chat *)

(** Modelled from the spec: the [Category] and [Product] records of
    [store.models] and the [ChatMessage] record of [chat.models], whose
    declarations are not part of these sources.  Prices and stock counts are
    integers, printed as in the spec's example "LaptopX - $150000 (Stock: 3)".
    [images] holds the URLs of the related images in query order. *)
Record Category : Type := {
  category_id : Z;
  category_name : string;
  category_description : string
}.

Record Product : Type := {
  id : Z;
  product_name : string;
  price : Z;
  stock : Z;
  category : Category;
  description : string;
  is_available : bool;
  images : list string
}.

Definition User : Type := Z.

Record ChatMessage : Type := {
  user : option User;
  user_message : string;
  bot_response : option string;
  session_key : string;
  timestamp : Z
}.

(** ** The generative-AI client *)

Record GenerationConfig : Type := {
  max_output_tokens : Z;
  temperature_tenths : Z
}.

(** A loaded model: [generate_content(prompt, generation_config).text], which
    yields the text or raises (transport, quota, blocked or malformed
    response). *)
Record GenerativeModel : Type := {
  generate_content : string -> option GenerationConfig -> result string
}.

Record ModelInfo : Type := {
  name : string;
  supported_generation_methods : list string
}.

(** ** The world the code runs in *)

Record World : Type := {
  products : list Product;          (* Product.objects.all(), in query order *)
  categories : list Category;       (* Category.objects.all() *)
  chat_messages : list ChatMessage; (* ChatMessage.objects.all() *)
  now : Z;                          (* timezone.now() *)
  settings_GOOGLE_AI_API_KEY : option string;
  environ_GOOGLE_AI_API_KEY : option string;
  genai_GenerativeModel : string -> result GenerativeModel;
  genai_list_models : result (list ModelInfo);
  prompts_sent : list string        (* every prompt handed to generate_content *)
}.

Definition sent (prompt : string) (w : World) : World :=
  {| products := products w; categories := categories w;
     chat_messages := chat_messages w; now := now w;
     settings_GOOGLE_AI_API_KEY := settings_GOOGLE_AI_API_KEY w;
     environ_GOOGLE_AI_API_KEY := environ_GOOGLE_AI_API_KEY w;
     genai_GenerativeModel := genai_GenerativeModel w;
     genai_list_models := genai_list_models w;
     prompts_sent := prompts_sent w ++ [prompt] |}.

Definition saved (row : ChatMessage) (w : World) : World :=
  {| products := products w; categories := categories w;
     chat_messages := chat_messages w ++ [row]; now := now w;
     settings_GOOGLE_AI_API_KEY := settings_GOOGLE_AI_API_KEY w;
     environ_GOOGLE_AI_API_KEY := environ_GOOGLE_AI_API_KEY w;
     genai_GenerativeModel := genai_GenerativeModel w;
     genai_list_models := genai_list_models w;
     prompts_sent := prompts_sent w |}.

(** ** The monad of fallible, stateful code *)

Definition M (A : Type) : Type := World -> result A * World.

Definition ret {A : Type} (a : A) : M A := fun w => (Return a, w).

Definition raise {A : Type} (e : exn) : M A := fun w => (Raise e, w).

Definition bind {A B : Type} (m : M A) (k : A -> M B) : M B :=
  fun w =>
    match m w with
    | (Return a, w') => k a w'
    | (Raise e, w') => (Raise e, w')
    end.

(** [try: body / except Exception as e: handler e].  The handler starts from
    the world the body left behind. *)
Definition try_except {A : Type} (body : M A) (handler : exn -> M A) : M A :=
  fun w =>
    match body w with
    | (Return a, w') => (Return a, w')
    | (Raise e, w') => handler e w'
    end.

Definition gets {A : Type} (f : World -> A) : M A := fun w => (Return (f w), w).

Declare Scope monad_scope.
Delimit Scope monad_scope with monad.
Notation "x <- m ;; k" := (bind m (fun x => k))
  (at level 100, m at next level, right associativity) : monad_scope.
Notation "m ;;; k" := (bind m (fun _ => k))
  (at level 100, right associativity) : monad_scope.
Open Scope monad_scope.

(** ** QuerySet operations *)

Fixpoint insert_by {A : Type} (key : A -> Z) (x : A) (l : list A) : list A :=
  match l with
  | [] => [x]
  | y :: rest => if key x <=? key y then x :: y :: rest else y :: insert_by key x rest
  end.

(** [.order_by(field)]: rows in ascending order of the field; [order_by] of
    the negated field is [.order_by('-field')]. *)
Fixpoint order_by {A : Type} (key : A -> Z) (l : list A) : list A :=
  match l with
  | [] => []
  | x :: rest => insert_by key x (order_by key rest)
  end.

(** [.exists()] *)
Definition exists_ {A : Type} (l : list A) : bool :=
  match l with
  | [] => false
  | _ :: _ => true
  end.

(** [.first()] of an ordered query: the first row or [None]. *)
Definition first {A : Type} (l : list A) : option A := hd_error l.

(** [qs[:n]] *)
Definition slice_to {A : Type} (n : nat) (l : list A) : list A := firstn n l.

(** [len(xs)] *)
Definition len {A : Type} (l : list A) : Z := Z.of_nat (List.length l).

Definition Product_objects_filter (pred : Product -> bool) : M (list Product) :=
  gets (fun w => filter pred (products w)).

Definition Category_objects_all : M (list Category) := gets categories.

(** [id__in=product_ids] *)
Definition id__in (product_ids : list Z) (p : Product) : bool :=
  existsb (Z.eqb (id p)) product_ids.

(** ** The dicts built for the prompts *)

(** One dict of [get_product_info]; ['price'] is [float(product.price)]. *)
Record ProductInfo : Type := {
  info_id : Z;
  info_name : string;
  info_price : Z;
  info_stock : Z;
  info_category : string;
  info_description : string
}.

(** One dict of [get_categories_info]. *)
Record CategoryInfo : Type := {
  cat_info_id : Z;
  cat_info_name : string;
  cat_info_description : string
}.

(** One dict of [comparison_data]; ['precio'] is [float(product.price)]. *)
Record ComparisonRow : Type := {
  nombre : string;
  precio : Z;
  categoria : string;
  row_stock : Z;
  descripcion : string
}.

(** ** What the runtime, Django and the missing declarations supply *)

Class Env : Type := {
  (** [str.lower()] *)
  str_lower : string -> string;
  (** [str.strip()] *)
  str_strip : string -> string;
  (** the ORM lookup [field__icontains=needle], decided by the database *)
  icontains : string -> string -> bool;
  (** [.order_by('?')], the order the database draws *)
  random_order : list Product -> list Product;
  (** [repr] of a list of names, of the product dicts and of the comparison
      dicts, as an f-string prints them *)
  repr_names : list string -> string;
  repr_product_info : list ProductInfo -> string;
  repr_comparison_data : list ComparisonRow -> string;
  (** [timestamp.strftime('%H:%M')] *)
  strftime_HM : Z -> string;
  (** the column constraints of [chat.models.ChatMessage]: [save()] raises on
      a row that violates them *)
  ChatMessage_accepts : ChatMessage -> bool
}.

(** ** chat/utils.py: [ChatBotUtils] *)

Record ChatBotUtils : Type := {
  api_key : string;
  model : option GenerativeModel
}.

Definition lines (ls : list string) : string := join nl ls.

Definition category_words : list string :=
  ["categoría"; "categoria"; "computadoras"; "ropa"; "música"; "muebles"; "accesorios"].
Definition budget_words : list string :=
  ["presupuesto"; "gs"; "guaraníes"; "200.000"; "200000"; "dinero"].
Definition account_words : list string :=
  ["contraseña"; "password"; "cambiar contraseña"; "olvidé contraseña"].
Definition purchase_words : list string :=
  ["comprar"; "pedido"; "carrito"; "pago"; "envío"].
Definition stock_words : list string :=
  ["stock"; "disponible"; "cantidad"; "unidades"].

(** [any(word in text for word in words)] *)
Definition mentions (words : list string) (text : string) : bool :=
  any (fun word => contains word text) words.
Arguments mentions : simpl never.

(** [f"• **{p.product_name}** - ${p.price} (Stock: {p.stock})"] *)
Definition product_line (p : Product) : string :=
  "• **" ++ product_name p ++ "** - $" ++ str_of_int (price p)
  ++ " (Stock: " ++ str_of_int (stock p) ++ ")".

(** [f"• {cat.category_name}"] *)
Definition category_line (cat : Category) : string := "• " ++ category_name cat.

(** [f"• **{p.product_name}** - {p.stock} unidades"] *)
Definition stock_line (p : Product) : string :=
  "• **" ++ product_name p ++ "** - " ++ str_of_int (stock p) ++ " unidades".

(** [f"• **{p.product_name}** - ${p.price}"] *)
Definition featured_line (p : Product) : string :=
  "• **" ++ product_name p ++ "** - $" ++ str_of_int (price p).

Definition computadoras_listing (products : list Product) : string :=
  "🖥️ **Productos en Computadoras:**" ++ nl ++ nl
  ++ join nl (map product_line products) ++ nl ++ nl
  ++ "¿Te interesa alguno de estos productos?".

Definition computadoras_empty : string :=
  "❌ No hay productos disponibles en la categoría Computadoras.".

Definition categories_listing (categories : list Category) : string :=
  "📂 **Categorías disponibles:**" ++ nl ++ nl
  ++ join nl (map category_line categories) ++ nl ++ nl
  ++ "Puedo mostrarte los productos de cualquier categoría. ¿Cuál te interesa?".

Definition budget : Z := 200000.

(** [f"{budget:,}"] for the budget above *)
Definition budget_with_commas : string := "200,000".

Definition budget_listing (affordable_products : list Product) : string :=
  "💰 **Productos dentro de tu presupuesto de " ++ budget_with_commas ++ " GS:**"
  ++ nl ++ nl ++ join nl (map product_line affordable_products) ++ nl ++ nl
  ++ "¿Te gustaría más información de algún producto en particular?".

Definition budget_none (cheapest_price : Z) : string :=
  "❌ No hay productos dentro de tu presupuesto de " ++ budget_with_commas ++ " GS. "
  ++ "El producto más económico cuesta $" ++ str_of_int cheapest_price.

Definition account_help : string :=
  "🔐 **Para cambiar tu contraseña:**" ++ nl ++ nl
  ++ "1. Ve a 'Mi Cuenta' en el menú superior" ++ nl
  ++ "2. Haz clic en 'Cambiar Contraseña'" ++ nl
  ++ "3. Ingresa tu contraseña actual y la nueva" ++ nl
  ++ "4. Confirma los cambios" ++ nl ++ nl
  ++ "Si olvidaste tu contraseña, haz clic en '¿Olvidaste tu contraseña?' en la página de login.".

Definition purchase_help : string :=
  "🛒 **Proceso de compra:**" ++ nl ++ nl
  ++ "1. **Agregar productos**: Haz clic en 'Agregar al Carrito'" ++ nl
  ++ "2. **Ver carrito**: Ve a 'Carrito' en el menú" ++ nl
  ++ "3. **Checkout**: Haz clic en 'Proceder al Pago'" ++ nl
  ++ "4. **Envío**: Elige dirección y método de envío" ++ nl
  ++ "5. **Pago**: Selecciona tu método de pago" ++ nl
  ++ "6. **Confirmación**: Recibirás un email de confirmación" ++ nl ++ nl
  ++ "¿En qué paso necesitas ayuda?".

Definition stock_listing (top_products : list Product) : string :=
  "📦 **Productos con mayor stock:**" ++ nl ++ nl
  ++ join nl (map stock_line top_products) ++ nl ++ nl
  ++ "¿Quieres información detallada de algún producto?".

Definition general_greeting (product_count category_count : Z)
    (featured_products : list Product) : string :=
  "¡Hola! Soy tu asistente virtual. 😊" ++ nl ++ nl
  ++ "**Resumen de la tienda:**" ++ nl
  ++ "• " ++ str_of_int product_count ++ " productos disponibles" ++ nl
  ++ "• " ++ str_of_int category_count ++ " categorías" ++ nl ++ nl
  ++ "**Algunos productos destacados:**" ++ nl
  ++ join nl (map featured_line featured_products) ++ nl ++ nl
  ++ "**Puedo ayudarte con:**" ++ nl
  ++ "• 🛍️ Información de productos y stock" ++ nl
  ++ "• 💰 Precios y presupuestos" ++ nl
  ++ "• 🛒 Proceso de compra" ++ nl
  ++ "• 🔐 Gestión de cuenta" ++ nl
  ++ "• 📦 Seguimiento de pedidos" ++ nl
  ++ "• 🔄 Comparación de productos" ++ nl ++ nl
  ++ "¿En qué necesitas ayuda específicamente?".

(** The text of the [except] clause of [generate_fallback_response]. *)
Definition static_greeting : string :=
  "¡Hola! Estoy aquí para ayudarte con información sobre nuestros productos, stock, precios, proceso de compra y gestión de tu cuenta. ¿En qué puedo asistirte hoy?".

Definition insufficient_products : string :=
  "Se necesitan al menos 2 productos para comparar".

(** The dict appended per product by [get_product_info]. *)
Definition product_dict (product : Product) : ProductInfo :=
  {| info_id := id product;
     info_name := product_name product;
     info_price := price product;
     info_stock := stock product;
     info_category := category_name (category product);
     info_description := description product |}.

(** The dict built per category by [get_categories_info]. *)
Definition category_dict (cat : Category) : CategoryInfo :=
  {| cat_info_id := category_id cat;
     cat_info_name := category_name cat;
     cat_info_description := category_description cat |}.

(** The dict appended per product by [compare_products]. *)
Definition comparison_row (product : Product) : ComparisonRow :=
  {| nombre := product_name product;
     precio := price product;
     categoria := category_name (category product);
     row_stock := stock product;
     descripcion := description product |}.

(** [GenerationConfig(max_output_tokens=1000, temperature=0.7)] *)
Definition generation_config : GenerationConfig :=
  {| max_output_tokens := 1000; temperature_tenths := 7 |}.

Section Chat.

Context `{Env}.

(** [self.model.generate_content(prompt, generation_config=config).text];
    with [self.model] absent the attribute lookup on [None] raises. *)
Definition model_generate_content (self : ChatBotUtils) (prompt : string)
    (config : option GenerationConfig) : M string :=
  match model self with
  | None => raise (no_attribute "NoneType" "generate_content")
  | Some m => fun w => (generate_content m prompt config, sent prompt w)
  end.

(** [genai.GenerativeModel(name)] *)
Definition GenerativeModel_new (model_name : string) : M GenerativeModel :=
  fun w => (genai_GenerativeModel w model_name, w).

Definition list_available_models : M (list string) :=
  try_except
    (models <- (fun w => (genai_list_models w, w)) ;;
     ret (map name
            (filter (fun m => existsb (String.eqb "generateContent")
                                (supported_generation_methods m))
               models)))
    (fun _ => ret ["gemini-pro"]).

(** [ChatBotUtils.__init__] *)
Definition ChatBotUtils_init : M ChatBotUtils :=
  from_settings <- gets settings_GOOGLE_AI_API_KEY ;;
  key <- match truthy_str from_settings with
         | Some _ => ret from_settings
         | None => gets environ_GOOGLE_AI_API_KEY
         end ;;
  match truthy_str key with
  | Some the_key =>
      loaded <-
        try_except
          (m <- GenerativeModel_new "models/gemini-pro-latest" ;; ret (Some m))
          (fun _ =>
             try_except
               (m <- GenerativeModel_new "models/gemini-pro" ;; ret (Some m))
               (fun _ =>
                  try_except
                    (available_models <- list_available_models ;;
                     match available_models with
                     | model_name :: _ =>
                         m <- GenerativeModel_new model_name ;; ret (Some m)
                     | [] => ret None
                     end)
                    (fun _ => ret None))) ;;
      ret {| api_key := the_key; model := loaded |}
  | None =>
      raise (ValueError ("GOOGLE_AI_API_KEY no está configurada. "
                         ++ "Por favor, agrega GOOGLE_AI_API_KEY a tu archivo .env"))
  end.

Definition get_product_info : M (list ProductInfo) :=
  products <- gets products ;;
  ret (map product_dict products).

Definition get_categories_info : M (list CategoryInfo) :=
  categories <- Category_objects_all ;;
  ret (map category_dict categories).

(** *** The six branches of [generate_fallback_response] *)

Definition category_branch (user_message_lower : string) : M (option string) :=
  if contains "computadora" user_message_lower then
    products <- Product_objects_filter
                  (fun p => icontains "computadora" (category_name (category p))
                            && is_available p) ;;
    if exists_ products then ret (Some (computadoras_listing products))
    else ret (Some computadoras_empty)
  else
    categories <- Category_objects_all ;;
    ret (Some (categories_listing categories)).

Definition budget_branch : M (option string) :=
  affordable_products <-
    gets (fun w => order_by price
                     (filter (fun p => (price p <=? budget) && is_available p)
                        (products w))) ;;
  if exists_ affordable_products then ret (Some (budget_listing affordable_products))
  else
    cheapest <- gets (fun w => first (order_by price (filter is_available (products w)))) ;;
    match cheapest with
    | Some p => ret (Some (budget_none (price p)))
    | None => raise (no_attribute "NoneType" "price")
    end.

(** When no product exists the branch ends without a [return]: the call
    yields [None]. *)
Definition stock_branch : M (option string) :=
  products <- gets (fun w => order_by (fun p => - stock p) (products w)) ;;
  if exists_ products then
    let top_products := slice_to 3 products in
    ret (Some (stock_listing top_products))
  else ret None.

Definition general_branch : M (option string) :=
  product_count <- gets (fun w => len (products w)) ;;
  category_count <- gets (fun w => len (categories w)) ;;
  total_products <- Product_objects_filter is_available ;;
  let featured_products := slice_to 3 (random_order total_products) in
  ret (Some (general_greeting product_count category_count featured_products)).

Definition generate_fallback_response (user_message : string) : M (option string) :=
  try_except
    (let user_message_lower := str_lower user_message in
     if mentions category_words user_message_lower then
       category_branch user_message_lower
     else if mentions budget_words user_message_lower then budget_branch
     else if mentions account_words user_message_lower then ret (Some account_help)
     else if mentions purchase_words user_message_lower then ret (Some purchase_help)
     else if mentions stock_words user_message_lower then stock_branch
     else general_branch)
    (fun _ => ret (Some static_greeting)).

Definition google_ai_prompt (product_info : list ProductInfo)
    (categories_info : list CategoryInfo) (user_message : string) : string :=
  lines [
    "";
    "            Eres un asistente virtual especializado en e-commerce. Responde ÚNICAMENTE en español.";
    "            ";
    "            INFORMACIÓN ACTUAL DE LA TIENDA:";
    "            - Productos disponibles: " ++ str_of_int (len product_info);
    "            - Categorías: " ++ repr_names (map cat_info_name categories_info);
    "            - Datos de productos: " ++ repr_product_info product_info;
    "            ";
    "            CONTEXTO DE USUARIO:";
    "            - El usuario está en una tienda online real";
    "            - Puedes acceder a información actualizada de productos, precios y stock";
    "            - Debes ser útil, preciso y amable";
    "            ";
    "            PREGUNTA DEL USUARIO: " ++ dquote ++ user_message ++ dquote;
    "            ";
    "            Responde de manera:";
    "            - Útil y específica basándote en los datos reales de la tienda";
    "            - En español claro y natural";
    "            - Incluye información relevante de productos si aplica";
    "            - Ofrece seguir ayudando";
    "            ";
    "            RESPUESTA:";
    "            " ].

Definition generate_google_ai_response (self : ChatBotUtils) (user_message : string)
    (conversation_history : list (string * option string)) : M (option string) :=
  try_except
    (product_info <- get_product_info ;;
     categories_info <- get_categories_info ;;
     let prompt := google_ai_prompt product_info categories_info user_message in
     text <- model_generate_content self prompt (Some generation_config) ;;
     ret (Some (str_strip text)))
    (fun _ => generate_fallback_response user_message).

Definition comparison_prompt (comparison_data : list ComparisonRow) : string :=
  lines [
    "";
    "            Como experto en e-commerce, compara estos productos de manera útil:";
    "            ";
    "            " ++ repr_comparison_data comparison_data;
    "            ";
    "            Responde en español con:";
    "            1. Similitudes clave";
    "            2. Diferencias principales (precio, características)";
    "            3. Recomendación según diferentes necesidades";
    "            4. Mejor opción por categoría (valor, características)";
    "            ";
    "            Sé objetivo y útil para el cliente:";
    "            " ].

(** The [except] clause calls [self._manual_product_comparison], an
    attribute that neither the class body nor [__init__] defines: the
    lookup raises, and the exception leaves [compare_products]. *)
Definition compare_products (self : ChatBotUtils) (product_ids : list Z) : M string :=
  try_except
    (products <- Product_objects_filter (id__in product_ids) ;;
     if len products <? 2 then ret insufficient_products
     else
       let comparison_data := map comparison_row products in
       let prompt := comparison_prompt comparison_data in
       text <- model_generate_content self prompt None ;;
       ret (str_strip text))
    (fun _ => raise (no_attribute "ChatBotUtils" "_manual_product_comparison")).

End Chat.

(** ** chat/views.py *)

#[warnings="-register-all"] Inductive json : Type :=
| JNull
| JBool (b : bool)
| JInt (n : Z)
| JStr (s : string)
| JList (items : list json)
| JDict (fields : list (string * json)).

Inductive HttpResponse : Type :=
| JsonResponse (data : json) (status : Z)
| render (template_name : string) (messages : list ChatMessage)
    (categories : list Category).

(** The entry ['product_ids'] of a request body: the key may be missing, or
    hold null, or hold a list of identifiers. *)
Inductive ProductIdsField : Type :=
| ids_absent
| ids_null
| ids_list (ids : list Z).

(** A request as the views read it.  [request_user] is [Some u] exactly when
    [request.user.is_authenticated]; [created_session_key] is the key that
    [request.session.create()] installs; [form_message] is
    [form.cleaned_data['message']] when [form.is_valid()]; the [body_*] fields
    are the entries of [json.loads(request.body)], identifiers being
    integers and names strings: [body_category_id] and [body_category_name]
    are [None] when absent or null, which [data.get] does not tell apart,
    and [body_product_ids] tells the missing key from null, which
    [data.get('product_ids', [])] does. *)
Record HttpRequest : Type := {
  request_user : option User;
  request_session_key : option string;
  created_session_key : string;
  form_message : option string;
  body_category_id : option Z;
  body_category_name : option string;
  body_product_ids : ProductIdsField
}.

(** [session_key = request.session.session_key], created when falsy: the key
    the view goes on with.  The session store is outside [World]; of
    [request.session.create()] only the key it installs is kept here, not
    the session it writes. *)
Definition obtain_session_key (request : HttpRequest) : string :=
  match truthy_str (request_session_key request) with
  | Some session_key => session_key
  | None => created_session_key request
  end.

(** [data.get('product_ids', [])]: the empty list when the key is missing,
    Python's [None] when the body holds null. *)
Definition requested_product_ids (request : HttpRequest) : option (list Z) :=
  match body_product_ids request with
  | ids_absent => Some []
  | ids_null => None
  | ids_list ids => Some ids
  end.

(** [filter(user=u)] and [filter(session_key=k)] *)
Definition of_user (u : User) (msg : ChatMessage) : bool :=
  match user msg with
  | Some v => v =? u
  | None => false
  end.

Definition of_session (k : string) (msg : ChatMessage) : bool :=
  String.eqb (session_key msg) k.

(** [ChatMessage.objects.filter(...).order_by('timestamp')[:limit]] *)
Definition ChatMessage_history (owned : ChatMessage -> bool) (limit : nat)
    : M (list ChatMessage) :=
  gets (fun w => slice_to limit (order_by timestamp (filter owned (chat_messages w)))).

(** [{'user_message': msg.user_message, 'bot_response': msg.bot_response}] *)
Definition history_entry (msg : ChatMessage) : string * option string :=
  (user_message msg, bot_response msg).

Definition ok : Z := 200.

Definition json_of_optional_str (s : option string) : json :=
  match s with
  | Some text => JStr text
  | None => JNull
  end.

Definition product_entry (product : Product) : json :=
  let image_url :=
    match images product with
    | url :: _ => JStr url
    | [] => JNull
    end in
  JDict [ ("id", JInt (id product));
          ("name", JStr (product_name product));
          ("price", JStr (str_of_int (price product)));
          ("stock", JInt (stock product));
          ("description", JStr (description product));
          ("image_url", image_url) ].

Definition products_response (products : list Product) : HttpResponse :=
  let products_data := map product_entry products in
  JsonResponse (JDict [ ("success", JBool true);
                        ("products", JList products_data);
                        ("count", JInt (len products_data)) ]) ok.

Section Views.

Context `{Env}.

(** [chat_message.save()]: the row enters the table unless a column
    constraint rejects it. *)
Definition ChatMessage_save (row : ChatMessage) : M unit :=
  fun w =>
    if ChatMessage_accepts row then (Return tt, saved row w)
    else (Raise (IntegrityError "constraint failed"), w).

(** The history query of [ChatView.get] (20 rows). *)
Definition ChatView_get_messages (request : HttpRequest) : M (list ChatMessage) :=
  match request_user request with
  | Some u => ChatMessage_history (of_user u) 20
  | None => ChatMessage_history (of_session (obtain_session_key request)) 20
  end.

Definition ChatView_get (request : HttpRequest) : M HttpResponse :=
  messages <- ChatView_get_messages request ;;
  categories <- Category_objects_all ;;
  ret (render "chat/chat.html" messages categories).

(** The history query of [ChatView.post] (10 rows) with the [session_key]
    variable it leaves: [None] for an authenticated user. *)
Definition ChatView_post_history (request : HttpRequest)
    : M (list ChatMessage * option string) :=
  match request_user request with
  | Some u =>
      conversation_history <- ChatMessage_history (of_user u) 10 ;;
      ret (conversation_history, None)
  | None =>
      let session_key := obtain_session_key request in
      conversation_history <- ChatMessage_history (of_session session_key) 10 ;;
      ret (conversation_history, Some session_key)
  end.

(** The row [ChatView.post] builds; [timestamp] is set on creation. *)
Definition new_chat_message (request : HttpRequest) (user_message : string)
    (bot_response : option string) (session_key : option string)
    (created : Z) : ChatMessage :=
  {| user := request_user request;
     user_message := user_message;
     bot_response := bot_response;
     session_key := match request_user request, session_key with
                    | None, Some k => k
                    | _, _ => ""
                    end;
     timestamp := created |}.

Definition ChatView_post (request : HttpRequest) : M HttpResponse :=
  match form_message request with
  | Some user_message =>
      chat_utils <- ChatBotUtils_init ;;
      found <- ChatView_post_history request ;;
      let '(conversation_history, session_key) := found in
      let history_list := map history_entry conversation_history in
      bot_response <-
        try_except
          (generate_google_ai_response chat_utils user_message history_list)
          (fun e => ret (Some ("Lo siento, hubo un error al procesar tu mensaje. "
                               ++ "Por favor, intenta nuevamente. Error: " ++ exn_str e))) ;;
      created <- gets now ;;
      ChatMessage_save
        (new_chat_message request user_message bot_response session_key created) ;;;
      ret (JsonResponse (JDict [ ("success", JBool true);
                                 ("user_message", JStr user_message);
                                 ("bot_response", json_of_optional_str bot_response);
                                 ("timestamp", JStr (strftime_HM created)) ]) ok)
  | None =>
      ret (JsonResponse (JDict [ ("success", JBool false);
                                 ("error", JStr "Formulario inválido") ]) ok)
  end.

Definition ProductsByCategoryView_post (request : HttpRequest) : M HttpResponse :=
  try_except
    (match truthy_int (body_category_id request),
           truthy_str (body_category_name request) with
     | Some wanted_id, _ =>
         products <- Product_objects_filter
                       (fun p => (category_id (category p) =? wanted_id)
                                 && is_available p) ;;
         ret (products_response products)
     | None, Some wanted_name =>
         products <- Product_objects_filter
                       (fun p => icontains wanted_name (category_name (category p))
                                 && is_available p) ;;
         ret (products_response products)
     | None, None =>
         ret (JsonResponse
                (JDict [ ("error", JStr "Se requiere category_id o category_name") ])
                400)
     end)
    (fun e => ret (JsonResponse (JDict [ ("success", JBool false);
                                         ("error", JStr (exn_str e)) ]) ok)).

Definition CompareProductsView_post (request : HttpRequest) : M HttpResponse :=
  try_except
    (match requested_product_ids request with
     | None =>
         (* len(None) *)
         raise (TypeError "object of type 'NoneType' has no len()")
     | Some product_ids =>
         if len product_ids <? 2 then
           ret (JsonResponse (JDict [ ("success", JBool false);
                                      ("error", JStr insufficient_products) ]) 400)
         else
           chat_utils <- ChatBotUtils_init ;;
           comparison_result <- compare_products chat_utils product_ids ;;
           ret (JsonResponse (JDict [ ("success", JBool true);
                                      ("comparison", JStr comparison_result) ]) ok)
     end)
    (fun e => ret (JsonResponse
                     (JDict [ ("success", JBool false);
                              ("error", JStr ("Error al comparar productos: " ++ exn_str e)) ])
                     ok)).

End Views.

(** ** The dispatch of the fallback engine, as the specification words it

    An ordered list of (predicate, handler) pairs evaluated in fixed priority
    order, the general greeting when no predicate holds. *)

Section Dispatch.

Context `{Env}.

Definition dispatch_table
    : list ((string -> bool) * (string -> M (option string))) :=
  [ (mentions category_words, category_branch);
    (mentions budget_words, fun _ => budget_branch);
    (mentions account_words, fun _ => ret (Some account_help));
    (mentions purchase_words, fun _ => ret (Some purchase_help));
    (mentions stock_words, fun _ => stock_branch) ].

Fixpoint first_match (table : list ((string -> bool) * (string -> M (option string))))
    (otherwise : M (option string)) (text : string) : M (option string) :=
  match table with
  | [] => otherwise
  | (applies, handler) :: weaker =>
      if applies text then handler text else first_match weaker otherwise text
  end.

(** A branch run under the [try] of [generate_fallback_response]. *)
Definition guarded (branch : M (option string)) : M (option string) :=
  try_except branch (fun _ => ret (Some static_greeting)).

Definition spec_respond (user_message : string) : M (option string) :=
  guarded (first_match dispatch_table general_branch (str_lower user_message)).

End Dispatch.

(** ** Properties of rows and of the service *)

(** A turn carries a user and no session token, or a session token and no
    user. *)
Definition identity_xor (row : ChatMessage) : Prop :=
  (user row <> None /\ session_key row = "") \/
  (user row = None /\ session_key row <> "").

Definition by_timestamp (a b : ChatMessage) : Prop := timestamp a <= timestamp b.

Definition by_price (a b : Product) : Prop := price a <= price b.

(** The service signals an error on this prompt: the loaded model raises. *)
Definition service_fails (self : ChatBotUtils) (prompt : string)
    (config : option GenerationConfig) : Prop :=
  exists m e, model self = Some m /\ generate_content m prompt config = Raise e.

(** ** A reference environment and sample data

    [reference_env] lowers the letters of the Basic Latin and Latin-1
    Supplement blocks, which covers every keyword of the engine, strips ASCII
    white space, and draws rows in table order. *)

Fixpoint lower_latin1 (after_c3 : bool) (s : string) : string :=
  match s with
  | EmptyString => EmptyString
  | String c rest =>
      let n := Z.of_nat (nat_of_ascii c) in
      if negb after_c3 && (65 <=? n) && (n <=? 90) then
        String (ascii_of_nat (nat_of_ascii c + 32)) (lower_latin1 false rest)
      else if after_c3 && (128 <=? n) && (n <=? 158) && negb (n =? 151) then
        String (ascii_of_nat (nat_of_ascii c + 32)) (lower_latin1 false rest)
      else String c (lower_latin1 (negb after_c3 && (n =? 195)) rest)
  end.

Definition is_space (c : ascii) : bool :=
  let n := Z.of_nat (nat_of_ascii c) in
  ((9 <=? n) && (n <=? 13)) || ((28 <=? n) && (n <=? 32)).

Fixpoint lstrip (l : list ascii) : list ascii :=
  match l with
  | c :: rest => if is_space c then lstrip rest else l
  | [] => []
  end.

Definition strip_ascii (s : string) : string :=
  string_of_list_ascii (rev (lstrip (rev (lstrip (list_ascii_of_string s))))).

Definition quoted (s : string) : string := "'" ++ s ++ "'".

Definition bracketed (items : list string) : string := "[" ++ join ", " items ++ "]".

Definition two_digits (n : Z) : string :=
  (if n <? 10 then "0" else "") ++ str_of_int n.

#[export] Instance reference_env : Env := {|
  str_lower := lower_latin1 false;
  str_strip := strip_ascii;
  icontains := fun needle hay =>
    contains (lower_latin1 false needle) (lower_latin1 false hay);
  random_order := fun rows => rows;
  repr_names := fun names => bracketed (map quoted names);
  repr_product_info := fun infos =>
    bracketed (map (fun i => "{'id': " ++ str_of_int (info_id i)
                             ++ ", 'name': " ++ quoted (info_name i)
                             ++ ", 'price': " ++ str_of_int (info_price i) ++ ".0"
                             ++ ", 'stock': " ++ str_of_int (info_stock i)
                             ++ ", 'category': " ++ quoted (info_category i)
                             ++ ", 'description': " ++ quoted (info_description i) ++ "}")
                 infos);
  repr_comparison_data := fun data =>
    bracketed (map (fun r => "{'nombre': " ++ quoted (nombre r)
                             ++ ", 'precio': " ++ str_of_int (precio r) ++ ".0"
                             ++ ", 'categoría': " ++ quoted (categoria r)
                             ++ ", 'stock': " ++ str_of_int (row_stock r)
                             ++ ", 'descripción': " ++ quoted (descripcion r) ++ "}")
                 data);
  strftime_HM := fun t =>
    two_digits ((t / 3600) mod 24) ++ ":" ++ two_digits ((t / 60) mod 60);
  ChatMessage_accepts := fun row =>
    match bot_response row with
    | Some _ => true
    | None => false
    end
|}.

Definition computadoras : Category :=
  {| category_id := 1; category_name := "Computadoras";
     category_description := "Equipos de escritorio y portátiles" |}.

Definition ropa : Category :=
  {| category_id := 2; category_name := "Ropa";
     category_description := "Prendas de vestir" |}.

Definition laptop_x : Product :=
  {| id := 1; product_name := "LaptopX"; price := 150000; stock := 3;
     category := computadoras; description := "Portátil de 14 pulgadas";
     is_available := true; images := [] |}.

Definition camisa : Product :=
  {| id := 2; product_name := "Camisa"; price := 80000; stock := 10;
     category := ropa; description := "Camisa de algodón";
     is_available := true; images := ["/media/camisa.jpg"] |}.

Definition televisor : Product :=
  {| id := 3; product_name := "Televisor"; price := 300000; stock := 2;
     category := computadoras; description := "Pantalla de 50 pulgadas";
     is_available := true; images := [] |}.

Definition abrigo_agotado : Product :=
  {| id := 4; product_name := "Abrigo"; price := 120000; stock := 0;
     category := ropa; description := "Abrigo de lana";
     is_available := false; images := [] |}.

(** A model whose every call fails with a quota error, and one that answers. *)
Definition failing_model : GenerativeModel :=
  {| generate_content := fun _ _ => Raise (ServiceError "429 quota exceeded") |}.

Definition answering_model : GenerativeModel :=
  {| generate_content := fun _ _ => Return " Con gusto te ayudo. " |}.

Definition store (rows : list Product) (cats : list Category)
    (turns : list ChatMessage) (loaded : GenerativeModel) : World :=
  {| products := rows; categories := cats; chat_messages := turns;
     now := 45296;
     settings_GOOGLE_AI_API_KEY := Some "clave-de-prueba";
     environ_GOOGLE_AI_API_KEY := None;
     genai_GenerativeModel := fun _ => Return loaded;
     genai_list_models := Return [];
     prompts_sent := [] |}.

Definition utils_with (loaded : GenerativeModel) : ChatBotUtils :=
  {| api_key := "clave-de-prueba"; model := Some loaded |}.

Definition turn (who : option User) (token : string) (asked : string) (at_ : Z)
    : ChatMessage :=
  {| user := who; user_message := asked; bot_response := Some "respuesta";
     session_key := token; timestamp := at_ |}.

Definition request_of (who : option User) (token : option string)
    (message : option string) : HttpRequest :=
  {| request_user := who; request_session_key := token;
     created_session_key := "k3q9x7m2p5v8c1z4b6n0a2s4d6f8g0h1";
     form_message := message;
     body_category_id := None; body_category_name := None;
     body_product_ids := ids_absent |}.

Definition json_request (wanted_id : option Z) (wanted_name : option string)
    (ids : option (list Z)) : HttpRequest :=
  {| request_user := None; request_session_key := None;
     created_session_key := "k3q9x7m2p5v8c1z4b6n0a2s4d6f8g0h1";
     form_message := None;
     body_category_id := wanted_id; body_category_name := wanted_name;
     body_product_ids := match ids with
                         | Some listed => ids_list listed
                         | None => ids_absent
                         end |}.

(** A compare request whose body is [{"product_ids": null}]. *)
Definition null_ids_request : HttpRequest :=
  {| request_user := None; request_session_key := None;
     created_session_key := "k3q9x7m2p5v8c1z4b6n0a2s4d6f8g0h1";
     form_message := None;
     body_category_id := None; body_category_name := None;
     body_product_ids := ids_null |}.

(** ** The stock report, the stock list and the action endpoint *)

(** The calls made on a reportlab canvas, in the order they are made. *)
Inductive canvas_op : Type :=
| setTitle (title : string)
| setFont (font : string) (size : Z)
| drawString (x y : Z) (text : string)
| showPage
| save.

(** What the report needs from the runtime and the database. *)
Class ReportEnv : Type := {
  (** [timestamp.strftime('%Y-%m-%d %H:%M')] *)
  strftime_Ymd_HM : Z -> string;
  (** [.order_by('category__category_name', 'product_name')], under the
      collation of the database *)
  order_by_category_and_name : list Product -> list Product
}.

(** The loop variables of [generate_stock_pdf]. *)
Record ReportCursor : Type := {
  y_position : Z;
  current_category : option string
}.

(** [product.category.category_name != current_category] *)
Definition category_changes (product : Product) (cursor : ReportCursor) : bool :=
  match current_category cursor with
  | Some shown => negb (String.eqb (category_name (category product)) shown)
  | None => true
  end.

(** [if y < 50: pdf.showPage(); y = 750] *)
Definition break_page_below_50 (y : Z) : list canvas_op * Z :=
  if y <? 50 then ([showPage], 750) else ([], y).

(** [f"  {product.product_name} - Stock: {product.stock} - Precio: ${product.price}"] *)
Definition report_line (product : Product) : string :=
  "  " ++ product_name product ++ " - Stock: " ++ str_of_int (stock product)
  ++ " - Precio: $" ++ str_of_int (price product).

(** [f"Categoría: {current_category}"] *)
Definition report_heading (shown : string) : string := "Categoría: " ++ shown.

(** One turn of the loop of [generate_stock_pdf]: the canvas calls it makes
    and the loop variables it leaves. *)
Definition stock_pdf_product (cursor : ReportCursor) (product : Product)
    : list canvas_op * ReportCursor :=
  let '(heading_ops, y_after_heading) :=
    if category_changes product cursor then
      let '(page_ops, y) := break_page_below_50 (y_position cursor - 20) in
      ((page_ops
        ++ [ setFont "Helvetica-Bold" 12;
             drawString 100 y (report_heading (category_name (category product))) ])%list,
       y - 15)
    else ([], y_position cursor) in
  let '(page_ops, y) := break_page_below_50 y_after_heading in
  ((heading_ops ++ page_ops
    ++ [ setFont "Helvetica" 10; drawString 120 y (report_line product) ])%list,
   {| y_position := y - 15;
      current_category := Some (category_name (category product)) |}).

Fixpoint stock_pdf_loop (products : list Product) (cursor : ReportCursor)
    : list canvas_op :=
  match products with
  | [] => []
  | product :: rest =>
      let '(ops, next) := stock_pdf_product cursor product in
      (ops ++ stock_pdf_loop rest next)%list
  end.

(** [f"{product.product_name} - Stock: {product.stock} - Precio: ${product.price}"] *)
Definition basic_line (product : Product) : string :=
  product_name product ++ " - Stock: " ++ str_of_int (stock product)
  ++ " - Precio: $" ++ str_of_int (price product).

(** The loop of the basic report of [GenerateStockPDFView.get]. *)
Fixpoint basic_pdf_loop (products : list Product) (y : Z) : list canvas_op :=
  match products with
  | [] => []
  | product :: rest =>
      let '(page_ops, y) :=
        if y <? 50 then
          ([ showPage; setFont "Helvetica-Bold" 16;
             drawString 100 800 "Reporte de Stock - E-commerce (Cont.)" ], 800)
        else ([], y) in
      (page_ops ++ [ setFont "Helvetica" 10; drawString 50 y (basic_line product) ]
       ++ basic_pdf_loop rest (y - 15))%list
  end.

(** What the report and action endpoints answer: a PDF download, whose
    content is the list of canvas calls, or one of the other responses. *)
Inductive Download : Type :=
| Pdf (content_disposition : string) (content : list canvas_op)
| Plain (response : HttpResponse).

(** ['attachment; filename="stock_report.pdf"'] *)
Definition stock_report_disposition : string :=
  "attachment; filename=" ++ dquote ++ "stock_report.pdf" ++ dquote.

(** The dict appended per product by [get_stock_list]. *)
Definition stock_entry (product : Product) : json :=
  JDict [ ("id", JInt (id product));
          ("name", JStr (product_name product));
          ("stock", JInt (stock product));
          ("price", JStr (str_of_int (price product)));
          ("display", JStr (product_name product ++ " - Stock: "
                            ++ str_of_int (stock product) ++ " - $"
                            ++ str_of_int (price product))) ].

(** [get_stock_list] *)
Definition get_stock_list (request : HttpRequest) : M HttpResponse :=
  try_except
    (products <- Product_objects_filter is_available ;;
     let stock_list := map stock_entry products in
     ret (JsonResponse (JDict [ ("products", JList stock_list) ]) ok))
    (fun e =>
       ret (JsonResponse
              (JDict [ ("success", JBool false);
                       ("error", JStr ("Error al obtener lista de stock: " ++ exn_str e)) ])
              ok)).

(** The request [chat_action] hands to [CompareProductsView.post]: its body
    is rewritten to hold [data.get('product_ids', [])] alone, null when that
    is [None]. *)
Definition with_product_ids_only (request : HttpRequest) : HttpRequest :=
  {| request_user := request_user request;
     request_session_key := request_session_key request;
     created_session_key := created_session_key request;
     form_message := form_message request;
     body_category_id := None;
     body_category_name := None;
     body_product_ids := match requested_product_ids request with
                         | Some ids => ids_list ids
                         | None => ids_null
                         end |}.

(** [action == expected], for an [action] that may be [None]. *)
Definition action_is (expected : string) (action : option string) : bool :=
  match action with
  | Some given => String.eqb given expected
  | None => false
  end.

Section Reports.

Context `{Env} `{ReportEnv}.

(** [generate_stock_pdf]: the canvas calls that make up the document.  No
    call of the body raises here, so its [except] clause, which re-raises
    under the message "Error al generar PDF", has nothing to catch. *)
Definition generate_stock_pdf (self : ChatBotUtils) : M (list canvas_op) :=
  created <- gets now ;;
  products <- gets (fun w => order_by_category_and_name (products w)) ;;
  ret ([ setTitle "Reporte de Stock - E-commerce";
         setFont "Helvetica-Bold" 16;
         drawString 100 750 "Reporte de Stock de Productos";
         setFont "Helvetica" 10;
         drawString 100 735 ("Generado el: " ++ strftime_Ymd_HM created) ]
       ++ stock_pdf_loop products {| y_position := 700; current_category := None |}
       ++ [save])%list.

(** The basic report built when the full one fails. *)
Definition basic_stock_pdf : M (list canvas_op) :=
  products <- gets (fun w => order_by_category_and_name
                               (filter is_available (products w))) ;;
  ret ([ setFont "Helvetica-Bold" 16;
         drawString 100 800 "Reporte de Stock - E-commerce" ]
       ++ basic_pdf_loop products 750 ++ [save])%list.

(** [GenerateStockPDFView.get] *)
Definition GenerateStockPDFView_get (request : HttpRequest) : M Download :=
  try_except
    (chat_utils <- ChatBotUtils_init ;;
     pdf_buffer <- generate_stock_pdf chat_utils ;;
     ret (Pdf stock_report_disposition pdf_buffer))
    (fun e =>
       try_except
         (buffer <- basic_stock_pdf ;;
          ret (Pdf stock_report_disposition buffer))
         (fun fallback_error =>
            ret (Plain (JsonResponse
                          (JDict [ ("success", JBool false);
                                   ("error", JStr ("Error al generar PDF: " ++ exn_str e
                                                   ++ ". Fallback también falló: "
                                                   ++ exn_str fallback_error)) ])
                          ok)))).

(** [chat_action]; [action] is [data.get('action')]. *)
Definition chat_action (action : option string) (request : HttpRequest) : M Download :=
  if action_is "download_pdf" action then GenerateStockPDFView_get request
  else if action_is "compare_products" action then
    response <- CompareProductsView_post (with_product_ids_only request) ;;
    ret (Plain response)
  else ret (Plain (JsonResponse (JDict [ ("response", JStr "Acción no reconocida.") ]) ok)).

End Reports.

(** The drawn texts of a document, with their place, in drawing order. *)
Fixpoint drawn_texts (ops : list canvas_op) : list (Z * Z * string) :=
  match ops with
  | [] => []
  | drawString x y text :: rest => (x, y, text) :: drawn_texts rest
  | _ :: rest => drawn_texts rest
  end.


(** A reference report environment: byte-wise ordering of the names, and the
    proleptic Gregorian calendar in UTC. *)
Definition names_precede (a b : Product) : bool :=
  match String.compare (category_name (category a)) (category_name (category b)) with
  | Lt => true
  | Gt => false
  | Eq => String.leb (product_name a) (product_name b)
  end.

Fixpoint insert_by_names (x : Product) (l : list Product) : list Product :=
  match l with
  | [] => [x]
  | y :: rest => if names_precede x y then x :: y :: rest else y :: insert_by_names x rest
  end.

Fixpoint sort_by_names (l : list Product) : list Product :=
  match l with
  | [] => []
  | x :: rest => insert_by_names x (sort_by_names rest)
  end.

Definition civil_date (days : Z) : Z * Z * Z :=
  let z := days + 719468 in
  let era := z / 146097 in
  let doe := z - era * 146097 in
  let yoe := (doe - doe / 1460 + doe / 36524 - doe / 146096) / 365 in
  let doy := doe - (365 * yoe + yoe / 4 - yoe / 100) in
  let mp := (5 * doy + 2) / 153 in
  let d := doy - (153 * mp + 2) / 5 + 1 in
  let m := if mp <? 10 then mp + 3 else mp - 9 in
  (yoe + era * 400 + (if m <=? 2 then 1 else 0), m, d).

#[export] Instance reference_report_env : ReportEnv := {|
  strftime_Ymd_HM := fun t =>
    let '(y, m, d) := civil_date (t / 86400) in
    str_of_int y ++ "-" ++ two_digits m ++ "-" ++ two_digits d ++ " "
    ++ two_digits ((t / 3600) mod 24) ++ ":" ++ two_digits ((t / 60) mod 60);
  order_by_category_and_name := sort_by_names
|}.

(** A world without an API key, and one whose model loads all fail. *)
Definition without_api_key (w : World) : World :=
  {| products := products w; categories := categories w;
     chat_messages := chat_messages w; now := now w;
     settings_GOOGLE_AI_API_KEY := None;
     environ_GOOGLE_AI_API_KEY := Some "";
     genai_GenerativeModel := genai_GenerativeModel w;
     genai_list_models := genai_list_models w;
     prompts_sent := prompts_sent w |}.

Definition without_models (w : World) : World :=
  {| products := products w; categories := categories w;
     chat_messages := chat_messages w; now := now w;
     settings_GOOGLE_AI_API_KEY := settings_GOOGLE_AI_API_KEY w;
     environ_GOOGLE_AI_API_KEY := environ_GOOGLE_AI_API_KEY w;
     genai_GenerativeModel := fun _ => Raise (ServiceError "404 model not found");
     genai_list_models := Raise (ServiceError "503 unavailable");
     prompts_sent := prompts_sent w |}.

(** A catalog of [n] available shirts, to fill pages. *)
Fixpoint shirts (n : nat) : list Product :=
  match n with
  | O => []
  | S k => camisa :: shirts k
  end.

(** Unfolds the monad operations and the queries in goal and hypotheses. *)
Ltac run :=
  unfold guarded, try_except, bind, ret, raise, gets,
    Product_objects_filter, Category_objects_all in *;
  simpl in *.

(** * Properties *)

(** ** Ordering queries *)

Section OrderByFacts.

Context {A : Type} (key : A -> Z).

Lemma insert_by_permutation (x : A) (l : list A) :
  Permutation (insert_by key x l) (x :: l).
Proof.
  induction l as [|y rest IH]; simpl.
  - apply Permutation_refl.
  - destruct (key x <=? key y).
    + apply Permutation_refl.
    + eapply perm_trans; [apply perm_skip, IH | apply perm_swap].
Qed.

Lemma order_by_permutation (l : list A) : Permutation (order_by key l) l.
Proof.
  induction l as [|x rest IH]; simpl.
  - constructor.
  - eapply perm_trans; [apply insert_by_permutation | now apply perm_skip].
Qed.

Lemma order_by_In (x : A) (l : list A) : In x (order_by key l) <-> In x l.
Proof.
  split; apply Permutation_in;
    [apply order_by_permutation | apply Permutation_sym, order_by_permutation].
Qed.

Lemma order_by_length (l : list A) : List.length (order_by key l) = List.length l.
Proof. apply Permutation_length, order_by_permutation. Qed.

Lemma insert_by_sorted (x : A) (l : list A) :
  StronglySorted (fun a b => key a <= key b) l ->
  StronglySorted (fun a b => key a <= key b) (insert_by key x l).
Proof.
  induction 1 as [|y rest Hrest IH Hall]; simpl.
  - repeat constructor.
  - destruct (key x <=? key y) eqn:Hcmp.
    + apply Z.leb_le in Hcmp.
      constructor; [now constructor|].
      constructor; [exact Hcmp|].
      eapply Forall_impl; [|exact Hall]. intros b Hb. simpl in Hb. lia.
    + apply Z.leb_gt in Hcmp.
      constructor; [exact IH|].
      eapply Permutation_Forall; [apply Permutation_sym, insert_by_permutation|].
      constructor; [lia | exact Hall].
Qed.

Lemma order_by_sorted (l : list A) :
  StronglySorted (fun a b => key a <= key b) (order_by key l).
Proof.
  induction l as [|x rest IH]; simpl; [constructor | now apply insert_by_sorted].
Qed.

Lemma order_by_first_least (l : list A) (c : A) :
  first (order_by key l) = Some c ->
  In c l /\ forall q, In q l -> key c <= key q.
Proof.
  intros Hfirst. pose proof (order_by_sorted l) as Hsorted.
  unfold first in Hfirst.
  destruct (order_by key l) as [|c' rest] eqn:Hsort; [discriminate|].
  simpl in Hfirst. injection Hfirst as ->.
  assert (Hin : forall q, In q l <-> In q (c :: rest))
    by (intro q; rewrite <- Hsort; symmetry; apply order_by_In).
  split; [apply Hin; now left|].
  intros q Hq. apply Hin in Hq. destruct Hq as [<- | Hq]; [lia|].
  inversion Hsorted as [|? ? _ Hall]; subst.
  rewrite Forall_forall in Hall. now apply Hall.
Qed.

Lemma order_by_first_none (l : list A) :
  first (order_by key l) = None -> l = [].
Proof.
  intros Hfirst. pose proof (order_by_length l) as Hlen.
  destruct (order_by key l); [|discriminate].
  destruct l; [reflexivity | discriminate].
Qed.

End OrderByFacts.

Lemma firstn_subset {A : Type} (n : nat) (l : list A) (x : A) :
  In x (firstn n l) -> In x l.
Proof.
  revert n. induction l as [|y rest IH]; intros [|n]; simpl; try tauto.
  intros [Heq | Hin]; [now left | right; now apply (IH n)].
Qed.

Lemma firstn_strongly_sorted {A : Type} (R : A -> A -> Prop) (n : nat) (l : list A) :
  StronglySorted R l -> StronglySorted R (firstn n l).
Proof.
  intros Hsorted. revert n.
  induction Hsorted as [|x rest Hrest IH Hall]; intros [|n]; simpl; try constructor.
  - apply IH.
  - rewrite Forall_forall in *. intros y Hy. apply Hall.
    now apply firstn_subset in Hy.
Qed.

(** ** Small facts used throughout *)

Lemma append_starts_nonempty (c : ascii) (s t : string) : String c s ++ t <> "".
Proof. simpl. discriminate. Qed.

Lemma exists_false_nil {A : Type} (l : list A) : exists_ l = false -> l = [].
Proof. destruct l; [reflexivity | discriminate]. Qed.

Lemma exists_true_cons {A : Type} (l : list A) : exists_ l = true -> l <> [].
Proof. destruct l; [discriminate | intros _; discriminate]. Qed.

(** ** The fallback engine *)

Section FallbackFacts.

Context `{Env}.

Lemma category_branch_run (text : string) (w : World) :
  category_branch text w =
  (Return (Some (if contains "computadora" text then
                   let listed :=
                     filter (fun p => icontains "computadora" (category_name (category p))
                                      && is_available p) (products w) in
                   if exists_ listed then computadoras_listing listed
                   else computadoras_empty
                 else categories_listing (categories w))), w).
Proof.
  unfold category_branch. run.
  destruct (contains "computadora" text); [|reflexivity].
  destruct (exists_ _); reflexivity.
Qed.

Lemma budget_branch_run (w : World) :
  guarded budget_branch w =
  (Return (Some
     (let affordable :=
        order_by price (filter (fun p => (price p <=? budget) && is_available p)
                          (products w)) in
      if exists_ affordable then budget_listing affordable
      else match first (order_by price (filter is_available (products w))) with
           | Some cheapest => budget_none (price cheapest)
           | None => static_greeting
           end)), w).
Proof.
  unfold budget_branch. run.
  destruct (exists_ _); [reflexivity|].
  destruct (first _); reflexivity.
Qed.

Lemma stock_branch_run (w : World) :
  stock_branch w =
  (Return (let ranked := order_by (fun p => - stock p) (products w) in
           if exists_ ranked then Some (stock_listing (slice_to 3 ranked))
           else None), w).
Proof.
  unfold stock_branch. run. destruct (exists_ _); reflexivity.
Qed.

Lemma general_branch_run (w : World) :
  general_branch w =
  (Return (Some (general_greeting (len (products w)) (len (categories w))
                   (slice_to 3 (random_order (filter is_available (products w)))))), w).
Proof. reflexivity. Qed.

Lemma guarded_return (branch : M (option string)) (w w' : World)
    (answer : option string) :
  branch w = (Return answer, w') -> guarded branch w = (Return answer, w').
Proof. intros Hrun. unfold guarded, try_except. now rewrite Hrun. Qed.

(** The response, branch by branch, in the order the source tests them. *)
Lemma fallback_cases (user_message : string) (w : World) :
  generate_fallback_response user_message w =
  let text := str_lower user_message in
  if mentions category_words text then guarded (category_branch text) w
  else if mentions budget_words text then guarded budget_branch w
  else if mentions account_words text then (Return (Some account_help), w)
  else if mentions purchase_words text then (Return (Some purchase_help), w)
  else if mentions stock_words text then guarded stock_branch w
  else guarded general_branch w.
Proof.
  unfold generate_fallback_response, guarded, try_except. simpl.
  destruct (mentions category_words _); [reflexivity|].
  destruct (mentions budget_words _); [reflexivity|].
  destruct (mentions account_words _); [reflexivity|].
  destruct (mentions purchase_words _); [reflexivity|].
  destruct (mentions stock_words _); reflexivity.
Qed.

(** The engine never raises and leaves the world as it found it. *)
Lemma fallback_never_raises (user_message : string) (w : World) :
  exists answer, generate_fallback_response user_message w = (Return answer, w).
Proof.
  rewrite fallback_cases. simpl.
  destruct (mentions category_words _).
  { rewrite (guarded_return _ _ _ _ (category_branch_run _ w)). eauto. }
  destruct (mentions budget_words _); [rewrite budget_branch_run; eauto|].
  destruct (mentions account_words _); [eauto|].
  destruct (mentions purchase_words _); [eauto|].
  destruct (mentions stock_words _).
  { rewrite (guarded_return _ _ _ _ (stock_branch_run w)). eauto. }
  rewrite (guarded_return _ _ _ _ (general_branch_run w)). eauto.
Qed.

(** Whatever text the engine returns is not empty. *)
Lemma fallback_text_nonempty (user_message : string) (w w' : World) (text : string) :
  generate_fallback_response user_message w = (Return (Some text), w') ->
  text <> "".
Proof.
  rewrite fallback_cases. simpl.
  destruct (mentions category_words _).
  { rewrite (guarded_return _ _ _ _ (category_branch_run _ w)).
    intros Heq. injection Heq as <- _.
    destruct (contains "computadora" _); [|apply append_starts_nonempty].
    simpl. destruct (exists_ _); [apply append_starts_nonempty | discriminate]. }
  destruct (mentions budget_words _).
  { rewrite budget_branch_run. intros Heq. injection Heq as <- _.
    simpl. destruct (exists_ _); [apply append_starts_nonempty|].
    destruct (first _); [apply append_starts_nonempty | discriminate]. }
  destruct (mentions account_words _).
  { intros Heq. injection Heq as <- _. apply append_starts_nonempty. }
  destruct (mentions purchase_words _).
  { intros Heq. injection Heq as <- _. apply append_starts_nonempty. }
  destruct (mentions stock_words _).
  { rewrite (guarded_return _ _ _ _ (stock_branch_run w)).
    simpl. destruct (exists_ _); [|discriminate].
    intros Heq. injection Heq as <- _. apply append_starts_nonempty. }
  rewrite (guarded_return _ _ _ _ (general_branch_run w)).
  intros Heq. injection Heq as <- _. apply append_starts_nonempty.
Qed.

(** The engine returns [None] exactly on a stock question over a catalog
    without products. *)
Lemma fallback_None_iff (user_message : string) (w : World) :
  fst (generate_fallback_response user_message w) = Return None <->
  (mentions category_words (str_lower user_message) = false /\
   mentions budget_words (str_lower user_message) = false /\
   mentions account_words (str_lower user_message) = false /\
   mentions purchase_words (str_lower user_message) = false /\
   mentions stock_words (str_lower user_message) = true /\
   products w = []).
Proof.
  rewrite fallback_cases. simpl.
  destruct (mentions category_words _).
  { rewrite (guarded_return _ _ _ _ (category_branch_run _ w)).
    simpl. split; [discriminate | intros [? _]; discriminate]. }
  destruct (mentions budget_words _).
  { rewrite budget_branch_run.
    simpl. split; [discriminate | intros (_ & ? & _); discriminate]. }
  destruct (mentions account_words _).
  { simpl. split; [discriminate | intros (_ & _ & ? & _); discriminate]. }
  destruct (mentions purchase_words _).
  { simpl. split; [discriminate | intros (_ & _ & _ & ? & _); discriminate]. }
  destruct (mentions stock_words _).
  { rewrite (guarded_return _ _ _ _ (stock_branch_run w)). simpl.
    destruct (exists_ _) eqn:Hex.
    - split; [discriminate|]. intros (_ & _ & _ & _ & _ & Hnil).
      rewrite Hnil in Hex. discriminate.
    - split; [|reflexivity]. intros _. repeat split; try reflexivity.
      apply exists_false_nil in Hex.
      pose proof (order_by_length (fun p => - stock p) (products w)) as Hlen.
      rewrite Hex in Hlen. destruct (products w); [reflexivity | discriminate]. }
  rewrite (guarded_return _ _ _ _ (general_branch_run w)).
  simpl. split; [discriminate | intros (_ & _ & _ & _ & ? & _); discriminate].
Qed.

End FallbackFacts.

(** ** Claims about the fallback engine *)

(** C1: the respond operation is claimed to return a non-empty string for
    every message.  On the stock question "stock" over a catalog without
    products the stock branch ends without a [return], and the call yields
    [None] instead of a string. *)
Theorem fallback_yields_None_for_stock_question_on_empty_catalog :
  generate_fallback_response "stock" (store [] [computadoras] [] failing_model)
  = (Return None, store [] [computadoras] [] failing_model).
Proof. vm_compute. reflexivity. Qed.

Section FallbackClaims.

Context `{Env}.

(** C7: the classification runs in fixed priority order (category, budget,
    account, purchase, stock, general greeting), and the first branch whose
    keyword set matches decides the response alone, whatever the weaker
    keyword sets do: the source's chain is the first-match dispatch over
    the ordered table, and each branch answers as soon as the stronger
    ones do not match. *)
Theorem fallback_first_matching_branch_decides (user_message : string) :
  let text := str_lower user_message in
  generate_fallback_response user_message = spec_respond user_message /\
  (mentions category_words text = true ->
   generate_fallback_response user_message = guarded (category_branch text)) /\
  (mentions category_words text = false ->
   mentions budget_words text = true ->
   generate_fallback_response user_message = guarded budget_branch) /\
  (mentions category_words text = false ->
   mentions budget_words text = false ->
   mentions account_words text = true ->
   generate_fallback_response user_message = guarded (ret (Some account_help))) /\
  (mentions category_words text = false ->
   mentions budget_words text = false ->
   mentions account_words text = false ->
   mentions purchase_words text = true ->
   generate_fallback_response user_message = guarded (ret (Some purchase_help))) /\
  (mentions category_words text = false ->
   mentions budget_words text = false ->
   mentions account_words text = false ->
   mentions purchase_words text = false ->
   mentions stock_words text = true ->
   generate_fallback_response user_message = guarded stock_branch) /\
  (mentions category_words text = false ->
   mentions budget_words text = false ->
   mentions account_words text = false ->
   mentions purchase_words text = false ->
   mentions stock_words text = false ->
   generate_fallback_response user_message = guarded general_branch).
Proof.
  intros text. split; [reflexivity|].
  unfold generate_fallback_response, guarded. fold text.
  repeat split; intros; repeat
    match goal with
    | Hm : mentions _ text = _ |- _ => rewrite Hm; clear Hm
    end; reflexivity.
Qed.

(** C3, amended: on a message with a category keyword, the engine lists the
    available products whose category name contains "computadora" (name,
    price, stock, in catalog order) when the message contains
    "computadora", reports that none is available when there is none, and
    for every other category keyword lists all category names. *)
Theorem category_request_response (user_message : string) (w : World) :
  mentions category_words (str_lower user_message) = true ->
  let listed :=
    filter (fun p => icontains "computadora" (category_name (category p))
                     && is_available p) (products w) in
  (forall p, In p listed <->
             In p (products w) /\
             icontains "computadora" (category_name (category p)) = true /\
             is_available p = true) /\
  (contains "computadora" (str_lower user_message) = true -> listed <> [] ->
   generate_fallback_response user_message w
   = (Return (Some (computadoras_listing listed)), w)) /\
  (contains "computadora" (str_lower user_message) = true -> listed = [] ->
   generate_fallback_response user_message w
   = (Return (Some computadoras_empty), w)) /\
  (contains "computadora" (str_lower user_message) = false ->
   generate_fallback_response user_message w
   = (Return (Some (categories_listing (categories w))), w)).
Proof.
  intros Hcat listed.
  assert (Hrun : generate_fallback_response user_message w
                 = guarded (category_branch (str_lower user_message)) w).
  { rewrite fallback_cases. simpl. now rewrite Hcat. }
  rewrite Hrun, (guarded_return _ _ _ _ (category_branch_run _ w)).
  fold listed. split; [|repeat split].
  - intros p. unfold listed. rewrite filter_In, andb_true_iff. tauto.
  - intros -> Hsome. destruct listed; [contradiction | reflexivity].
  - intros -> ->. reflexivity.
  - intros ->. reflexivity.
Qed.

(** C4, amended: on a message with a budget keyword and no category
    keyword, the engine lists the available products priced at most 200000
    in ascending price order; when none qualifies it states the price (not
    the name) of a cheapest available product, and when no product is
    available at all it returns the static greeting. *)
Theorem budget_request_response (user_message : string) (w : World) :
  mentions category_words (str_lower user_message) = false ->
  mentions budget_words (str_lower user_message) = true ->
  let affordable :=
    order_by price (filter (fun p => (price p <=? 200000) && is_available p)
                      (products w)) in
  StronglySorted by_price affordable /\
  (forall p, In p affordable <->
             In p (products w) /\ price p <= 200000 /\ is_available p = true) /\
  (affordable <> [] ->
   generate_fallback_response user_message w
   = (Return (Some (budget_listing affordable)), w)) /\
  (affordable = [] ->
   forall cheapest,
     In cheapest (products w) -> is_available cheapest = true ->
     (forall q, In q (products w) -> is_available q = true ->
                price cheapest <= price q) ->
     generate_fallback_response user_message w
     = (Return (Some (budget_none (price cheapest))), w)) /\
  (affordable = [] ->
   (forall q, In q (products w) -> is_available q = false) ->
   generate_fallback_response user_message w
   = (Return (Some static_greeting), w)).
Proof.
  intros Hcat Hbudget affordable.
  assert (Hrun : generate_fallback_response user_message w = guarded budget_branch w).
  { rewrite fallback_cases. simpl. now rewrite Hcat, Hbudget. }
  rewrite Hrun, budget_branch_run. unfold budget. fold affordable. simpl.
  split; [apply order_by_sorted|].
  split.
  { intros p. unfold affordable.
    rewrite order_by_In, filter_In, andb_true_iff, Z.leb_le. tauto. }
  split; [|split].
  - intros Hsome. destruct affordable; [contradiction | reflexivity].
  - intros -> cheapest Hin Havail Hleast. simpl.
    destruct (first (order_by price (filter is_available (products w))))
      as [c|] eqn:Hfirst.
    + apply order_by_first_least in Hfirst. destruct Hfirst as [Hc Hmin].
      apply filter_In in Hc. destruct Hc as [Hc Hcavail].
      assert (price c = price cheapest) as ->; [|reflexivity].
      apply Z.le_antisymm.
      * apply Hmin, filter_In. now split.
      * now apply Hleast.
    + apply order_by_first_none in Hfirst.
      assert (Hmem : In cheapest (filter is_available (products w)))
        by (apply filter_In; now split).
      rewrite Hfirst in Hmem. contradiction.
  - intros -> Hnone. simpl.
    destruct (first (order_by price (filter is_available (products w))))
      as [c|] eqn:Hfirst; [|reflexivity].
    apply order_by_first_least in Hfirst. destruct Hfirst as [Hc _].
    apply filter_In in Hc. destruct Hc as [Hc Hcavail].
    rewrite (Hnone c Hc) in Hcavail. discriminate.
Qed.

End FallbackClaims.

(** ** The AI adapter *)

Section AdapterFacts.

Context `{Env}.

(** The engine reads the catalog only: prompts logged meanwhile do not
    change its answer. *)
Lemma fallback_ignores_prompt_log (user_message prompt : string) (w : World) :
  fst (generate_fallback_response user_message (sent prompt w))
  = fst (generate_fallback_response user_message w).
Proof.
  rewrite !fallback_cases. simpl.
  destruct (mentions category_words _).
  { now rewrite !(guarded_return _ _ _ _ (category_branch_run _ _)). }
  destruct (mentions budget_words _); [now rewrite !budget_branch_run|].
  destruct (mentions account_words _); [reflexivity|].
  destruct (mentions purchase_words _); [reflexivity|].
  destruct (mentions stock_words _).
  { now rewrite !(guarded_return _ _ _ _ (stock_branch_run _)). }
  now rewrite !(guarded_return _ _ _ _ (general_branch_run _)).
Qed.

Lemma failed_call_run (self : ChatBotUtils) (prompt : string)
    (config : option GenerationConfig) (w : World) :
  service_fails self prompt config ->
  exists e, model_generate_content self prompt config w = (Raise e, sent prompt w).
Proof.
  intros (m & e & Hmodel & Hfail). exists e.
  unfold model_generate_content. now rewrite Hmodel, Hfail.
Qed.

(** With too few products resolved, [compare_products] answers at once and
    sends nothing. *)
Lemma compare_short_circuit (self : ChatBotUtils) (product_ids : list Z) (w : World) :
  (List.length (filter (id__in product_ids) (products w)) < 2)%nat ->
  compare_products self product_ids w = (Return insufficient_products, w).
Proof.
  intros Hfew. unfold compare_products. run.
  assert (Hlt : (len (filter (id__in product_ids) (products w)) <? 2) = true)
    by (apply Z.ltb_lt; unfold len; lia).
  now rewrite Hlt.
Qed.

(** With two or more products resolved and a failing service, the [except]
    clause of [compare_products] raises in its turn. *)
Lemma compare_raises_on_service_error (self : ChatBotUtils) (product_ids : list Z)
    (w : World) :
  (2 <= List.length (filter (id__in product_ids) (products w)))%nat ->
  service_fails self
    (comparison_prompt (map comparison_row (filter (id__in product_ids) (products w))))
    None ->
  fst (compare_products self product_ids w)
  = Raise (no_attribute "ChatBotUtils" "_manual_product_comparison").
Proof.
  intros Henough Hfail. unfold compare_products. run.
  assert (Hge : (len (filter (id__in product_ids) (products w)) <? 2) = false)
    by (apply Z.ltb_ge; unfold len; lia).
  rewrite Hge.
  destruct (failed_call_run _ _ _ w Hfail) as [e Hcall]. now rewrite Hcall.
Qed.

End AdapterFacts.

(** ** Claims about the AI adapter *)

Section AdapterClaims.

Context `{Env}.

(** C2: whenever the generative service raises on the prompt built for the
    message, [generate_google_ai_response] does not raise and returns what
    the fallback engine returns for the same message over the same
    catalog. *)
Theorem generate_falls_back_on_service_error (self : ChatBotUtils)
    (user_message : string) (conversation_history : list (string * option string))
    (w : World) :
  service_fails self
    (google_ai_prompt (map product_dict (products w))
       (map category_dict (categories w)) user_message)
    (Some generation_config) ->
  fst (generate_google_ai_response self user_message conversation_history w)
  = fst (generate_fallback_response user_message w) /\
  exists answer,
    fst (generate_google_ai_response self user_message conversation_history w)
    = Return answer.
Proof.
  intros Hfail.
  assert (Hrun : fst (generate_google_ai_response self user_message
                        conversation_history w)
                 = fst (generate_fallback_response user_message w)).
  { unfold generate_google_ai_response, get_product_info, get_categories_info. run.
    destruct (failed_call_run _ _ _ w Hfail) as [e Hcall]. rewrite Hcall.
    apply fallback_ignores_prompt_log. }
  split; [exact Hrun|].
  rewrite Hrun.
  destruct (fallback_never_raises user_message w) as [answer Hanswer].
  exists answer. now rewrite Hanswer.
Qed.

(** C6: when fewer than two of the requested products exist,
    [compare_products] returns the insufficient-products message and the
    world, with its log of prompts sent to the service, is unchanged; and
    when the id list of the request (the list in its body, or the empty list
    when the body has no product_ids key) has fewer than two identifiers,
    the endpoint answers 400 with the error "Se necesitan al menos 2
    productos para comparar". *)
Theorem comparison_needs_two_products (self : ChatBotUtils) (product_ids : list Z)
    (request : HttpRequest) (w : World) :
  ((List.length (filter (id__in product_ids) (products w)) < 2)%nat ->
   compare_products self product_ids w
   = (Return "Se necesitan al menos 2 productos para comparar", w)) /\
  (forall listed,
     requested_product_ids request = Some listed ->
     (List.length listed < 2)%nat ->
   CompareProductsView_post request w
   = (Return (JsonResponse
                (JDict [ ("success", JBool false);
                         ("error", JStr "Se necesitan al menos 2 productos para comparar") ])
                400), w)).
Proof.
  split.
  - apply compare_short_circuit.
  - intros listed Hlisted Hfew. unfold CompareProductsView_post. rewrite Hlisted. run.
    assert (Hlt : (len listed <? 2) = true)
      by (apply Z.ltb_lt; unfold len; lia).
    now rewrite Hlt.
Qed.

End AdapterClaims.

(** The endpoint turns that exception into its error payload. *)
Lemma compare_view_reports_error_when_service_fails :
  fst (CompareProductsView_post (json_request None None (Some [1; 3]))
         (store [laptop_x; camisa; televisor] [computadoras; ropa] [] failing_model))
  = Return (JsonResponse
              (JDict [ ("success", JBool false);
                       ("error", JStr ("Error al comparar productos: "
                                       ++ "'ChatBotUtils' object has no attribute "
                                       ++ "'_manual_product_comparison'")) ])
              200).
Proof. vm_compute. reflexivity. Qed.

(** C5: [compare_products] is claimed to fall back to a manual comparison
    and return a string when the service fails.  With products 1 and 3
    resolved and a service that fails with a quota error, the [except]
    clause looks up [_manual_product_comparison], which [ChatBotUtils] does
    not define, and the call raises [AttributeError]. *)
Theorem compare_raises_when_service_fails :
  fst (compare_products (utils_with failing_model) [1; 3]
         (store [laptop_x; camisa; televisor] [computadoras; ropa] [] failing_model))
  = Raise (AttributeError
             "'ChatBotUtils' object has no attribute '_manual_product_comparison'").
Proof. vm_compute. reflexivity. Qed.

(** ** The conversation store *)

Lemma history_run (owned : ChatMessage -> bool) (limit : nat) (w : World) :
  ChatMessage_history owned limit w
  = (Return (firstn limit (order_by timestamp (filter owned (chat_messages w)))), w).
Proof. reflexivity. Qed.

Lemma history_ascending (owned : ChatMessage -> bool) (limit : nat) (w : World) :
  StronglySorted by_timestamp
    (firstn limit (order_by timestamp (filter owned (chat_messages w)))).
Proof. apply firstn_strongly_sorted, (order_by_sorted timestamp). Qed.

Lemma history_capped (owned : ChatMessage -> bool) (limit : nat) (w : World) :
  (List.length (firstn limit (order_by timestamp (filter owned (chat_messages w))))
   <= limit)%nat.
Proof. apply firstn_le_length. Qed.

Lemma history_owned (owned : ChatMessage -> bool) (limit : nat) (w : World)
    (row : ChatMessage) :
  In row (firstn limit (order_by timestamp (filter owned (chat_messages w)))) ->
  In row (chat_messages w) /\ owned row = true.
Proof.
  intros Hin. apply firstn_subset in Hin.
  apply order_by_In in Hin. now apply filter_In in Hin.
Qed.

Lemma obtain_session_key_nonempty (request : HttpRequest) :
  created_session_key request <> "" -> obtain_session_key request <> "".
Proof.
  intros Hcreated. unfold obtain_session_key, truthy_str.
  destruct (request_session_key request) as [[|c s]|]; try exact Hcreated.
  discriminate.
Qed.

Section StoreClaims.

Context `{Env}.

(** C8: for every owner (a user or a session key) and every limit, the
    history query returns the first [limit] turns of the owner's turns in
    ascending timestamp order: the result is sorted by non-decreasing
    timestamp, nothing reverses it, and it holds at most [limit] turns.
    [ChatView.get] runs it with limit 20 and [ChatView.post] with limit 10,
    handing the turns on in the same order. *)
Theorem history_is_ascending_and_capped (owned : ChatMessage -> bool) (limit : nat)
    (request : HttpRequest) (w : World) :
  (exists turns,
     ChatMessage_history owned limit w = (Return turns, w) /\
     turns = firstn limit (order_by timestamp (filter owned (chat_messages w))) /\
     StronglySorted by_timestamp turns /\
     (List.length turns <= limit)%nat /\
     (forall row, In row turns -> In row (chat_messages w) /\ owned row = true)) /\
  (exists turns,
     ChatView_get_messages request w = (Return turns, w) /\
     StronglySorted by_timestamp turns /\
     (List.length turns <= 20)%nat) /\
  (exists turns session_key,
     ChatView_post_history request w = (Return (turns, session_key), w) /\
     StronglySorted by_timestamp turns /\
     (List.length turns <= 10)%nat).
Proof.
  split; [|split].
  - eexists. split; [apply history_run|].
    split; [reflexivity|].
    split; [apply history_ascending|].
    split; [apply history_capped | apply history_owned].
  - unfold ChatView_get_messages.
    destruct (request_user request) as [u|]; eexists;
      (split; [apply history_run|]);
      (split; [apply history_ascending | apply history_capped]).
  - unfold ChatView_post_history.
    destruct (request_user request) as [u|]; do 2 eexists;
      (split; [unfold bind; rewrite history_run; reflexivity|]);
      (split; [apply history_ascending | apply history_capped]).
Qed.

Lemma init_keeps_world (w : World) : snd (ChatBotUtils_init w) = w.
Proof.
  unfold ChatBotUtils_init, list_available_models, GenerativeModel_new,
    try_except, bind, ret, raise, gets.
  repeat (cbn -[String.eqb filter map];
          match goal with
          | Heq : ?x = _ |- context [match ?x with _ => _ end] => rewrite Heq
          | |- context [match ?x with _ => _ end] =>
              lazymatch x with
              | context [match _ with _ => _ end] => fail
              | _ => destruct x eqn:?
              end
          end);
    reflexivity.
Qed.

Lemma generate_keeps_messages (self : ChatBotUtils) (user_message : string)
    (conversation_history : list (string * option string)) (w : World) :
  exists answer w',
    generate_google_ai_response self user_message conversation_history w
    = (Return answer, w') /\
    chat_messages w' = chat_messages w /\ now w' = now w.
Proof.
  unfold generate_google_ai_response, get_product_info, get_categories_info,
    model_generate_content. run.
  destruct (model self) as [m|]; simpl.
  - destruct (generate_content m _ _) as [text|e]; simpl.
    + do 2 eexists. split; [reflexivity|]. now split.
    + destruct (fallback_never_raises user_message (sent (google_ai_prompt
        (map product_dict (products w)) (map category_dict (categories w))
        user_message) w)) as [answer ->].
      do 2 eexists. split; [reflexivity|]. now split.
  - destruct (fallback_never_raises user_message w) as [answer ->].
    do 2 eexists. split; [reflexivity|]. now split.
Qed.

(** C9: every turn that [ChatView.post] persists carries either the user
    and no session token (authenticated request) or a session token and no
    user (anonymous request): the view leaves the table as it is or appends
    exactly one such row, so a table whose rows all satisfy the
    exclusive-or keeps satisfying it. *)
Theorem persisted_turn_identity_xor (request : HttpRequest) (w : World) :
  created_session_key request <> "" ->
  let w' := snd (ChatView_post request w) in
  (chat_messages w' = chat_messages w \/
   exists row,
     chat_messages w' = (chat_messages w ++ [row])%list /\
     match request_user request with
     | Some u => user row = Some u /\ session_key row = ""
     | None => user row = None /\ session_key row <> ""
     end) /\
  ((forall row, In row (chat_messages w) -> identity_xor row) ->
   forall row, In row (chat_messages w') -> identity_xor row).
Proof.
  intros Hcreated w'.
  assert (Hstep : chat_messages w' = chat_messages w \/
                  exists row,
                    chat_messages w' = (chat_messages w ++ [row])%list /\
                    match request_user request with
                    | Some u => user row = Some u /\ session_key row = ""
                    | None => user row = None /\ session_key row <> ""
                    end).
  { remember w' as w1 eqn:Hw1. subst w'. unfold ChatView_post in Hw1.
    destruct (form_message request) as [user_message|]; [|left; now subst w1].
    unfold bind at 1 in Hw1.
    pose proof (init_keeps_world w) as Hinit.
    destruct (ChatBotUtils_init w) as [[chat_utils|e] w0]; simpl in Hinit; subst w0;
      [|left; now subst w1].
    unfold bind at 1, ChatView_post_history in Hw1.
    destruct (request_user request) as [u|] eqn:Huser.
    - unfold bind at 1 in Hw1. rewrite history_run in Hw1. unfold ret at 1 in Hw1.
      unfold bind at 1, try_except in Hw1.
      destruct (generate_keeps_messages chat_utils user_message
                  (map history_entry
                     (firstn 10 (order_by timestamp
                                   (filter (of_user u) (chat_messages w))))) w)
        as (answer & w2 & Hgen & Hmsgs & Hnow).
      rewrite Hgen in Hw1.
      unfold bind, gets, ret, ChatMessage_save in Hw1.
      destruct (ChatMessage_accepts _); simpl in Hw1; subst w1;
        [|left; exact Hmsgs].
      right. eexists. split; [simpl; rewrite Hmsgs; reflexivity|].
      unfold new_chat_message. simpl. rewrite Huser. now split.
    - unfold bind at 1 in Hw1. rewrite history_run in Hw1. unfold ret at 1 in Hw1.
      unfold bind at 1, try_except in Hw1.
      destruct (generate_keeps_messages chat_utils user_message
                  (map history_entry
                     (firstn 10 (order_by timestamp
                                   (filter (of_session (obtain_session_key request))
                                      (chat_messages w))))) w)
        as (answer & w2 & Hgen & Hmsgs & Hnow).
      rewrite Hgen in Hw1.
      unfold bind, gets, ret, ChatMessage_save in Hw1.
      destruct (ChatMessage_accepts _); simpl in Hw1; subst w1;
        [|left; exact Hmsgs].
      right. eexists. split; [simpl; rewrite Hmsgs; reflexivity|].
      unfold new_chat_message. simpl. rewrite Huser.
      split; [reflexivity | now apply obtain_session_key_nonempty]. }
  split; [exact Hstep|].
  intros Hall row Hin.
  destruct Hstep as [Hsame | (added & Hadded & Hrow)].
  - rewrite Hsame in Hin. now apply Hall.
  - rewrite Hadded in Hin. apply in_app_or in Hin.
    destruct Hin as [Hin | [<- | []]]; [now apply Hall|].
    unfold identity_xor.
    destruct (request_user request) as [u|]; destruct Hrow as [Huser Hkey].
    + left. split; [rewrite Huser; discriminate | exact Hkey].
    + right. now split.
Qed.

(** C10: whether the request selects by category id or by a substring of
    the category name, the products-by-category endpoint returns entries
    for exactly the products of that selection whose availability flag is
    set; a product marked unavailable is never among them. *)
Theorem category_listing_only_available (request : HttpRequest) (w : World) :
  (forall wanted_id,
     truthy_int (body_category_id request) = Some wanted_id ->
     exists listed,
       ProductsByCategoryView_post request w
       = (Return (products_response listed), w) /\
       (forall p, In p listed <->
                  In p (products w) /\ category_id (category p) = wanted_id /\
                  is_available p = true)) /\
  (forall wanted_name,
     truthy_int (body_category_id request) = None ->
     truthy_str (body_category_name request) = Some wanted_name ->
     exists listed,
       ProductsByCategoryView_post request w
       = (Return (products_response listed), w) /\
       (forall p, In p listed <->
                  In p (products w) /\
                  icontains wanted_name (category_name (category p)) = true /\
                  is_available p = true)).
Proof.
  split.
  - intros wanted_id Hid. unfold ProductsByCategoryView_post. run. rewrite Hid.
    eexists. split; [reflexivity|].
    intros p. rewrite filter_In, andb_true_iff, Z.eqb_eq. tauto.
  - intros wanted_name Hid Hname. unfold ProductsByCategoryView_post. run.
    rewrite Hid, Hname.
    eexists. split; [reflexivity|].
    intros p. rewrite filter_In, andb_true_iff. tauto.
Qed.

End StoreClaims.

(** ** The claims on sample data *)

(** A request for "ropa" over a catalog holding an available shirt of the
    category Ropa: the engine answers with the list of category names, which
    shows Computadoras, and the shirt is not in the answer. *)
Lemma ropa_request_lists_categories_not_products :
  let w := store [laptop_x; camisa] [computadoras; ropa] [] failing_model in
  mentions category_words (str_lower "ropa") = true /\
  mentions budget_words (str_lower "ropa") = false /\
  is_available camisa = true /\
  category camisa = ropa /\
  exists text,
    generate_fallback_response "ropa" w = (Return (Some text), w) /\
    text = categories_listing [computadoras; ropa] /\
    contains (category_name computadoras) text = true /\
    contains (product_name camisa) text = false.
Proof.
  intros w. repeat split; try reflexivity.
  eexists. split; [vm_compute; reflexivity|].
  repeat split; vm_compute; reflexivity.
Qed.

(** The Computadoras listing follows the catalog order: no sort by name. *)
Lemma computadoras_listing_keeps_catalog_order :
  let w := store [televisor; laptop_x] [computadoras] [] failing_model in
  generate_fallback_response "computadoras" w
  = (Return (Some (computadoras_listing [televisor; laptop_x])), w).
Proof. vm_compute. reflexivity. Qed.

Lemma category_request_response_witness :
  let w := store [laptop_x; camisa] [computadoras; ropa] [] failing_model in
  mentions category_words (str_lower "¿qué computadoras tienen?") = true /\
  generate_fallback_response "¿qué computadoras tienen?" w
  = (Return (Some (computadoras_listing [laptop_x])), w).
Proof.
  intros w.
  assert (Hcat : mentions category_words (str_lower "¿qué computadoras tienen?") = true)
    by reflexivity.
  split; [exact Hcat|].
  destruct (category_request_response "¿qué computadoras tienen?" w Hcat)
    as (_ & Hlisting & _).
  apply Hlisting; [reflexivity | discriminate].
Defined.

(** A budget request over a catalog whose only product costs 300000: the
    answer states that price and does not name the product. *)
Lemma budget_reply_omits_product_name :
  let w := store [televisor] [computadoras] [] failing_model in
  mentions category_words (str_lower "presupuesto") = false /\
  mentions budget_words (str_lower "presupuesto") = true /\
  exists text,
    generate_fallback_response "presupuesto" w = (Return (Some text), w) /\
    text = budget_none 300000 /\
    contains (product_name televisor) text = false.
Proof.
  intros w. repeat split; try reflexivity.
  eexists. split; [vm_compute; reflexivity|].
  split; vm_compute; reflexivity.
Qed.

Lemma budget_request_response_witness :
  let w := store [televisor; laptop_x; camisa] [computadoras; ropa] [] failing_model in
  mentions category_words (str_lower "tengo un presupuesto de 200000 guaraníes") = false /\
  mentions budget_words (str_lower "tengo un presupuesto de 200000 guaraníes") = true /\
  generate_fallback_response "tengo un presupuesto de 200000 guaraníes" w
  = (Return (Some (budget_listing [camisa; laptop_x])), w).
Proof.
  intros w.
  assert (Hcat : mentions category_words
                   (str_lower "tengo un presupuesto de 200000 guaraníes") = false)
    by reflexivity.
  assert (Hbudget : mentions budget_words
                      (str_lower "tengo un presupuesto de 200000 guaraníes") = true)
    by reflexivity.
  split; [exact Hcat|]. split; [exact Hbudget|].
  destruct (budget_request_response "tengo un presupuesto de 200000 guaraníes" w
              Hcat Hbudget) as (_ & _ & Hlisting & _).
  apply Hlisting. discriminate.
Defined.

Lemma fallback_first_matching_branch_decides_witness :
  mentions category_words (str_lower "presupuesto para comprar stock") = false /\
  mentions budget_words (str_lower "presupuesto para comprar stock") = true /\
  mentions purchase_words (str_lower "presupuesto para comprar stock") = true /\
  mentions stock_words (str_lower "presupuesto para comprar stock") = true /\
  generate_fallback_response "presupuesto para comprar stock" = guarded budget_branch.
Proof.
  assert (Hcat : mentions category_words
                   (str_lower "presupuesto para comprar stock") = false) by reflexivity.
  assert (Hbudget : mentions budget_words
                      (str_lower "presupuesto para comprar stock") = true) by reflexivity.
  split; [exact Hcat|]. split; [exact Hbudget|].
  split; [reflexivity|]. split; [reflexivity|].
  destruct (fallback_first_matching_branch_decides "presupuesto para comprar stock")
    as (_ & _ & Hsecond & _).
  exact (Hsecond Hcat Hbudget).
Defined.

Lemma generate_falls_back_on_service_error_witness :
  let self := utils_with failing_model in
  let w := store [laptop_x; camisa] [computadoras; ropa] [] failing_model in
  service_fails self
    (google_ai_prompt (map product_dict (products w))
       (map category_dict (categories w)) "hola")
    (Some generation_config) /\
  fst (generate_google_ai_response self "hola" [] w)
  = fst (generate_fallback_response "hola" w).
Proof.
  intros self w.
  assert (Hfail : service_fails self
                    (google_ai_prompt (map product_dict (products w))
                       (map category_dict (categories w)) "hola")
                    (Some generation_config)).
  { exists failing_model, (ServiceError "429 quota exceeded"). split; reflexivity. }
  split; [exact Hfail|].
  apply (generate_falls_back_on_service_error self "hola" [] w Hfail).
Defined.

Lemma comparison_needs_two_products_witness :
  let self := utils_with answering_model in
  let w := store [laptop_x; camisa] [computadoras; ropa] [] answering_model in
  let request := json_request None None (Some [5]) in
  let product_ids := [1; 5] in
  let listed := [5] in
  (List.length (filter (id__in product_ids) (products w)) < 2)%nat /\
  compare_products self product_ids w
  = (Return "Se necesitan al menos 2 productos para comparar", w) /\
  requested_product_ids request = Some listed /\
  (List.length listed < 2)%nat /\
  CompareProductsView_post request w
  = (Return (JsonResponse
               (JDict [ ("success", JBool false);
                        ("error", JStr "Se necesitan al menos 2 productos para comparar") ])
               400), w).
Proof.
  intros self w request product_ids listed.
  assert (Hresolved : (List.length (filter (id__in product_ids) (products w)) < 2)%nat)
    by (simpl; lia).
  assert (Hlisted : requested_product_ids request = Some listed) by reflexivity.
  assert (Hfew : (List.length listed < 2)%nat) by (simpl; lia).
  destruct (comparison_needs_two_products self product_ids request w)
    as [Hcompare Hview].
  split; [exact Hresolved|]. split; [exact (Hcompare Hresolved)|].
  split; [exact Hlisted|]. split; [exact Hfew | exact (Hview listed Hlisted Hfew)].
Defined.

Lemma history_is_ascending_and_capped_witness :
  let w := store [] [] [turn (Some 7) "" "tercero" 30; turn (Some 7) "" "primero" 10;
                        turn None "abc" "ajeno" 15; turn (Some 7) "" "segundo" 20]
             failing_model in
  exists turns,
    ChatMessage_history (of_user 7) 2 w = (Return turns, w) /\
    turns = [turn (Some 7) "" "primero" 10; turn (Some 7) "" "segundo" 20] /\
    StronglySorted by_timestamp turns /\
    (List.length turns <= 2)%nat.
Proof.
  intros w.
  destruct (history_is_ascending_and_capped (of_user 7) 2 (request_of (Some 7) None None) w)
    as [(turns & Hrun & Hturns & Hsorted & Hcapped & _) _].
  exists turns. split; [exact Hrun|]. split; [rewrite Hturns; reflexivity|].
  split; [exact Hsorted | exact Hcapped].
Defined.

Lemma persisted_turn_identity_xor_witness :
  let request := request_of None None (Some "hola") in
  let w := store [laptop_x] [computadoras] [] answering_model in
  created_session_key request <> "" /\
  (chat_messages (snd (ChatView_post request w)) = chat_messages w \/
   exists row,
     chat_messages (snd (ChatView_post request w)) = (chat_messages w ++ [row])%list /\
     user row = None /\ session_key row <> "").
Proof.
  intros request w.
  assert (Hcreated : created_session_key request <> "") by discriminate.
  split; [exact Hcreated|].
  exact (proj1 (persisted_turn_identity_xor request w Hcreated)).
Defined.

(** The anonymous request above does persist a turn, under the created
    session key and without a user. *)
Lemma anonymous_post_persists_turn :
  chat_messages (snd (ChatView_post (request_of None None (Some "hola"))
                        (store [laptop_x] [computadoras] [] answering_model)))
  = [ {| user := None; user_message := "hola";
         bot_response := Some "Con gusto te ayudo.";
         session_key := "k3q9x7m2p5v8c1z4b6n0a2s4d6f8g0h1";
         timestamp := 45296 |} ].
Proof. vm_compute. reflexivity. Qed.

Lemma category_listing_only_available_witness :
  let request := json_request None (Some "ropa") None in
  let w := store [camisa; abrigo_agotado; laptop_x] [computadoras; ropa] []
             failing_model in
  truthy_int (body_category_id request) = None /\
  truthy_str (body_category_name request) = Some "ropa" /\
  exists listed,
    ProductsByCategoryView_post request w = (Return (products_response listed), w) /\
    (forall p, In p listed <->
               In p (products w) /\
               icontains "ropa" (category_name (category p)) = true /\
               is_available p = true).
Proof.
  intros request w.
  assert (Hid : truthy_int (body_category_id request) = None) by reflexivity.
  assert (Hname : truthy_str (body_category_name request) = Some "ropa") by reflexivity.
  split; [exact Hid|]. split; [exact Hname|].
  exact (proj2 (category_listing_only_available request w) "ropa" Hid Hname).
Defined.

(** The unavailable coat of the sample catalog is left out of the listing of
    its category. *)
Lemma unavailable_coat_not_listed :
  ProductsByCategoryView_post (json_request None (Some "ropa") None)
    (store [camisa; abrigo_agotado; laptop_x] [computadoras; ropa] [] failing_model)
  = (Return (products_response [camisa]),
     store [camisa; abrigo_agotado; laptop_x] [computadoras; ropa] [] failing_model).
Proof. vm_compute. reflexivity. Qed.

(** * Further properties of the code *)

(** ** Lists in order *)

Lemma strongly_sorted_weaken {A : Type} (R R' : A -> A -> Prop) (l : list A) :
  (forall a b, R a b -> R' a b) -> StronglySorted R l -> StronglySorted R' l.
Proof.
  intros Himp. induction 1 as [|x rest Hrest IH Hall]; constructor.
  - exact IH.
  - eapply Forall_impl; [|exact Hall]. intros b. apply Himp.
Qed.

Lemma sorted_prefix_dominates {A : Type} (R : A -> A -> Prop) (n : nat) (l : list A) :
  StronglySorted R l ->
  forall p q, In p (firstn n l) -> In q (skipn n l) -> R p q.
Proof.
  intros Hsorted. revert n.
  induction Hsorted as [|x rest Hrest IH Hall]; intros [|n] p q Hp Hq;
    simpl in *; try contradiction.
  rewrite Forall_forall in Hall.
  destruct Hp as [<- | Hp].
  - apply Hall. eapply (In_nth_error) in Hq. destruct Hq as [i Hi].
    rewrite nth_error_skipn in Hi. eapply nth_error_In, Hi.
  - now apply (IH n).
Qed.

Lemma insert_by_last {A : Type} (key : A -> Z) (x newest : A) (l : list A) :
  key x < key newest ->
  insert_by key x (l ++ [newest]) = (insert_by key x l ++ [newest])%list.
Proof.
  intros Hlt. induction l as [|y rest IH]; simpl.
  - assert (Hle : (key x <=? key newest) = true) by (apply Z.leb_le; lia).
    now rewrite Hle.
  - destruct (key x <=? key y); [reflexivity|]. now rewrite IH.
Qed.

Lemma order_by_newest_last {A : Type} (key : A -> Z) (newest : A) (l : list A) :
  (forall x, In x l -> key x < key newest) ->
  order_by key (l ++ [newest]) = (order_by key l ++ [newest])%list.
Proof.
  induction l as [|y rest IH]; intros Holder; simpl; [reflexivity|].
  rewrite IH by (intros x Hx; apply Holder; now right).
  apply insert_by_last, Holder. now left.
Qed.

(** ** More on the fallback engine *)

Section FallbackExtras.

Context `{Env}.

(** The engine never raises and changes nothing; over a catalog that holds
    at least one product, whatever the message, it returns a text that is
    not empty. *)
Theorem fallback_answers_text_over_nonempty_catalog (user_message : string)
    (w : World) :
  products w <> [] ->
  exists text,
    generate_fallback_response user_message w = (Return (Some text), w) /\
    text <> "".
Proof.
  intros Hsome.
  destruct (fallback_never_raises user_message w) as [[text|] Hrun].
  - exists text. split; [exact Hrun|].
    eapply fallback_text_nonempty, Hrun.
  - exfalso. apply Hsome.
    assert (Hnone : fst (generate_fallback_response user_message w) = Return None)
      by now rewrite Hrun.
    apply fallback_None_iff in Hnone. tauto.
Qed.

(** A stock question lists the three products with the largest stock, in
    descending order of stock, drawn from the whole table: products marked
    unavailable take part. *)
Theorem stock_question_lists_top_three (user_message : string) (w : World) :
  mentions category_words (str_lower user_message) = false ->
  mentions budget_words (str_lower user_message) = false ->
  mentions account_words (str_lower user_message) = false ->
  mentions purchase_words (str_lower user_message) = false ->
  mentions stock_words (str_lower user_message) = true ->
  products w <> [] ->
  exists top others,
    generate_fallback_response user_message w
    = (Return (Some (stock_listing top)), w) /\
    Permutation (top ++ others) (products w) /\
    List.length top = Nat.min 3 (List.length (products w)) /\
    StronglySorted (fun a b => stock b <= stock a) top /\
    (forall p q, In p top -> In q others -> stock q <= stock p).
Proof.
  intros Hcat Hbudget Haccount Hpurchase Hstock Hsome.
  pose (ranked := order_by (fun p => - stock p) (products w)).
  assert (Hsorted : StronglySorted (fun a b => stock b <= stock a) ranked).
  { eapply strongly_sorted_weaken; [|apply order_by_sorted].
    intros a b Hab. simpl in Hab. lia. }
  exists (firstn 3 ranked), (skipn 3 ranked).
  split.
  { rewrite fallback_cases. simpl.
    rewrite Hcat, Hbudget, Haccount, Hpurchase, Hstock.
    rewrite (guarded_return _ _ _ _ (stock_branch_run w)). cbv zeta. fold ranked.
    destruct (exists_ ranked) eqn:Hex; [reflexivity|].
    apply exists_false_nil in Hex. exfalso. apply Hsome.
    pose proof (order_by_length (fun p => - stock p) (products w)) as Hlen.
    fold ranked in Hlen. rewrite Hex in Hlen.
    destruct (products w); [reflexivity | discriminate]. }
  split; [rewrite firstn_skipn; apply order_by_permutation|].
  split.
  { rewrite length_firstn. unfold ranked. now rewrite order_by_length. }
  split; [now apply firstn_strongly_sorted|].
  intros p q Hp Hq. exact (sorted_prefix_dominates _ 3 ranked Hsorted p q Hp Hq).
Qed.

(** A message without any keyword gets the greeting: it states the size of
    the whole product table and of the category table, and features at most
    three products, each of them an available product of the catalog as long
    as the random ordering only rearranges the rows. *)
Theorem general_greeting_features_available_products (user_message : string)
    (w : World) :
  (forall rows, Permutation (random_order rows) rows) ->
  mentions category_words (str_lower user_message) = false ->
  mentions budget_words (str_lower user_message) = false ->
  mentions account_words (str_lower user_message) = false ->
  mentions purchase_words (str_lower user_message) = false ->
  mentions stock_words (str_lower user_message) = false ->
  exists featured,
    generate_fallback_response user_message w
    = (Return (Some (general_greeting (len (products w)) (len (categories w))
                       featured)), w) /\
    (List.length featured <= 3)%nat /\
    (forall p, In p featured -> In p (products w) /\ is_available p = true).
Proof.
  intros Hperm Hcat Hbudget Haccount Hpurchase Hstock.
  eexists. split.
  { rewrite fallback_cases. simpl.
    rewrite Hcat, Hbudget, Haccount, Hpurchase, Hstock.
    apply guarded_return, general_branch_run. }
  split; [apply firstn_le_length|].
  intros p Hp. apply firstn_subset in Hp.
  eapply Permutation_in in Hp; [|apply Hperm].
  now apply filter_In in Hp.
Qed.

End FallbackExtras.

(** ** More on the AI adapter *)

Section AdapterExtras.

Context `{Env}.

(** [generate_google_ai_response] never raises, whatever the model does: it
    returns an answer, and the world it leaves is the one it found, or that
    one with the single prompt of the call logged.  The conversation history
    it is given plays no part in the outcome. *)
Theorem generate_never_raises (self : ChatBotUtils) (user_message : string)
    (conversation_history : list (string * option string)) (w : World) :
  (exists answer w',
     generate_google_ai_response self user_message conversation_history w
     = (Return answer, w') /\
     (w' = w \/
      w' = sent (google_ai_prompt (map product_dict (products w))
                   (map category_dict (categories w)) user_message) w)) /\
  (forall other_history,
     generate_google_ai_response self user_message other_history w
     = generate_google_ai_response self user_message conversation_history w).
Proof.
  split; [|reflexivity].
  unfold generate_google_ai_response, get_product_info, get_categories_info,
    model_generate_content. run.
  destruct (model self) as [m|]; simpl.
  - destruct (generate_content m _ _) as [text|e]; simpl.
    + do 2 eexists. split; [reflexivity | now right].
    + destruct (fallback_never_raises user_message
                  (sent (google_ai_prompt (map product_dict (products w))
                           (map category_dict (categories w)) user_message) w))
        as [answer ->].
      do 2 eexists. split; [reflexivity | now right].
  - destruct (fallback_never_raises user_message w) as [answer ->].
    do 2 eexists. split; [reflexivity | now left].
Qed.

(** When the model answers, the reply is its text with the surrounding white
    space stripped, and exactly the prompt built from the whole product
    table, the categories and the message has been sent. *)
Theorem generate_returns_stripped_model_text (self : ChatBotUtils)
    (m : GenerativeModel) (user_message text : string)
    (conversation_history : list (string * option string)) (w : World) :
  model self = Some m ->
  generate_content m
    (google_ai_prompt (map product_dict (products w))
       (map category_dict (categories w)) user_message)
    (Some generation_config) = Return text ->
  generate_google_ai_response self user_message conversation_history w
  = (Return (Some (str_strip text)),
     sent (google_ai_prompt (map product_dict (products w))
             (map category_dict (categories w)) user_message) w).
Proof.
  intros Hmodel Hanswer.
  unfold generate_google_ai_response, get_product_info, get_categories_info,
    model_generate_content. run.
  now rewrite Hmodel, Hanswer.
Qed.

Lemma no_model_run (self : ChatBotUtils) (user_message : string)
    (conversation_history : list (string * option string)) (w : World) :
  model self = None ->
  generate_google_ai_response self user_message conversation_history w
  = generate_fallback_response user_message w.
Proof.
  intros Hnone.
  unfold generate_google_ai_response, get_product_info, get_categories_info,
    model_generate_content. run. rewrite Hnone.
  destruct (fallback_never_raises user_message w) as [answer Hrun].
  unfold generate_fallback_response, try_except, ret in *. now rewrite Hrun.
Qed.

(** Without a loaded model the adapter answers with the fallback engine and
    sends nothing: the world is unchanged. *)
Theorem generate_without_model_uses_fallback (self : ChatBotUtils)
    (user_message : string) (conversation_history : list (string * option string))
    (w : World) :
  model self = None ->
  exists answer,
    generate_google_ai_response self user_message conversation_history w
    = (Return answer, w) /\
    generate_fallback_response user_message w = (Return answer, w).
Proof.
  intros Hnone. rewrite (no_model_run _ _ _ _ Hnone).
  destruct (fallback_never_raises user_message w) as [answer Hrun].
  exists answer. now split.
Qed.

(** With two or more of the requested products in the table (available or
    not), [compare_products] has three outcomes: the stripped text of the
    model when the call succeeds, and [AttributeError] both when the call
    fails and when no model is loaded; only in the last case is no prompt
    sent. *)
Theorem compare_outcomes_with_two_resolved (self : ChatBotUtils)
    (product_ids : list Z) (w : World) :
  (2 <= List.length (filter (id__in product_ids) (products w)))%nat ->
  let prompt :=
    comparison_prompt (map comparison_row (filter (id__in product_ids) (products w))) in
  compare_products self product_ids w =
  match model self with
  | None => (Raise (no_attribute "ChatBotUtils" "_manual_product_comparison"), w)
  | Some m =>
      match generate_content m prompt None with
      | Return text => (Return (str_strip text), sent prompt w)
      | Raise _ =>
          (Raise (no_attribute "ChatBotUtils" "_manual_product_comparison"),
           sent prompt w)
      end
  end.
Proof.
  intros Henough prompt. unfold compare_products, model_generate_content. run.
  assert (Hge : (len (filter (id__in product_ids) (products w)) <? 2) = false)
    by (apply Z.ltb_ge; unfold len; lia).
  rewrite Hge. fold prompt.
  destruct (model self) as [m|]; [|reflexivity].
  destruct (generate_content m prompt None); reflexivity.
Qed.

(** The identifiers given to [compare_products] count as a set: two lists
    with the same members, in any order and with any repetitions, give the
    same outcome. *)
Theorem compare_ignores_order_and_repetition (self : ChatBotUtils)
    (product_ids other_ids : list Z) (w : World) :
  (forall n, In n product_ids <-> In n other_ids) ->
  compare_products self product_ids w = compare_products self other_ids w.
Proof.
  intros Hsame.
  assert (Hfilter : filter (id__in product_ids) (products w)
                    = filter (id__in other_ids) (products w)).
  { apply filter_ext. intros p. unfold id__in.
    destruct (existsb (Z.eqb (id p)) product_ids) eqn:Hleft;
      destruct (existsb (Z.eqb (id p)) other_ids) eqn:Hright; try reflexivity.
    - apply existsb_exists in Hleft. destruct Hleft as (n & Hn & Heq).
      assert (Hthere : existsb (Z.eqb (id p)) other_ids = true)
        by (apply existsb_exists; exists n; split; [now apply Hsame | exact Heq]).
      congruence.
    - apply existsb_exists in Hright. destruct Hright as (n & Hn & Heq).
      assert (Hthere : existsb (Z.eqb (id p)) product_ids = true)
        by (apply existsb_exists; exists n; split; [now apply Hsame | exact Heq]).
      congruence. }
  unfold compare_products. run. now rewrite Hfilter.
Qed.

(** ** [ChatBotUtils.__init__] *)

(** [list_available_models] never raises: it yields the names of the models
    that support generateContent, and the single name "gemini-pro" when the
    listing itself fails. *)
Theorem list_available_models_never_raises (w : World) :
  exists names,
    list_available_models w = (Return names, w) /\
    (forall e, genai_list_models w = Raise e -> names = ["gemini-pro"]) /\
    (forall models, genai_list_models w = Return models ->
       forall n, In n names <->
                 exists m, In m models /\ name m = n /\
                           In "generateContent" (supported_generation_methods m)).
Proof.
  unfold list_available_models, try_except, bind, ret.
  destruct (genai_list_models w) as [models|e]; eexists;
    (split; [reflexivity|]); split; try discriminate.
  - intros models' Heq n. injection Heq as <-.
    rewrite in_map_iff. split.
    + intros (m & Hname & Hin). apply filter_In in Hin. destruct Hin as [Hin Hsup].
      exists m. repeat split; try assumption.
      apply existsb_exists in Hsup. destruct Hsup as (s & Hs & Heq).
      apply String.eqb_eq in Heq. now subst s.
    + intros (m & Hin & Hname & Hsup). exists m. split; [exact Hname|].
      apply filter_In. split; [exact Hin|].
      apply existsb_exists. exists "generateContent". split; [exact Hsup|].
      apply String.eqb_refl.
  - intros e' _. reflexivity.
Qed.

Lemma init_raises_without_key (w : World) :
  truthy_str (settings_GOOGLE_AI_API_KEY w) = None ->
  truthy_str (environ_GOOGLE_AI_API_KEY w) = None ->
  exists msg, ChatBotUtils_init w = (Raise (ValueError msg), w).
Proof.
  intros Hsettings Henviron. eexists.
  unfold ChatBotUtils_init, bind, gets, raise. cbn -[String.eqb filter map].
  rewrite Hsettings. cbn. now rewrite Henviron.
Qed.


End AdapterExtras.

Section ConstructorExtras.

Context `{Env}.

(** The model the constructor keeps is the first that loads, in the order
    gemini-pro-latest, gemini-pro, first listed model: a working
    gemini-pro-latest is always the one kept, gemini-pro is kept when
    gemini-pro-latest fails, the object has no model only if both failed,
    and a model it has was handed out by the client. *)
Theorem init_keeps_first_model_that_loads (w w' : World) (self : ChatBotUtils) :
  ChatBotUtils_init w = (Return self, w') ->
  (forall m, genai_GenerativeModel w "models/gemini-pro-latest" = Return m ->
             model self = Some m) /\
  (forall e m, genai_GenerativeModel w "models/gemini-pro-latest" = Raise e ->
               genai_GenerativeModel w "models/gemini-pro" = Return m ->
               model self = Some m) /\
  (model self = None ->
   (exists e, genai_GenerativeModel w "models/gemini-pro-latest" = Raise e) /\
   (exists e, genai_GenerativeModel w "models/gemini-pro" = Raise e)) /\
  (forall m, model self = Some m ->
             exists model_name, genai_GenerativeModel w model_name = Return m).
Proof.
  unfold ChatBotUtils_init, list_available_models, GenerativeModel_new,
    try_except, bind, ret, raise, gets.
  repeat (cbn -[String.eqb filter map];
          match goal with
          | Heq : ?x = _ |- context [match ?x with _ => _ end] => rewrite Heq
          | |- context [match ?x with _ => _ end] =>
              lazymatch x with
              | context [match _ with _ => _ end] => fail
              | _ => destruct x eqn:?
              end
          end);
    intros Hrun; try discriminate; injection Hrun as <- <-; cbn;
    (repeat split; intros; try congruence; eauto);
    match goal with
    | Hsome : Some _ = Some ?m |- _ => injection Hsome as <-; eauto
    end.
Qed.

End ConstructorExtras.

(** ** More on the views *)

Lemma of_user_true (u : User) (row : ChatMessage) :
  of_user u row = true -> user row = Some u.
Proof.
  unfold of_user. destruct (user row) as [v|]; [|discriminate].
  intros Heq. apply Z.eqb_eq in Heq. now subst v.
Qed.

Lemma of_session_true (k : string) (row : ChatMessage) :
  of_session k row = true -> session_key row = k.
Proof. unfold of_session. apply String.eqb_eq. Qed.

Section ViewExtras.

Context `{Env}.

(** How [ChatView.post] runs on a valid form: the constructor, the history
    query, the adapter, then the save. *)
Lemma post_run (request : HttpRequest) (user_message : string) (w : World) :
  form_message request = Some user_message ->
  ChatView_post request w =
  match ChatBotUtils_init w with
  | (Raise e, _) => (Raise e, w)
  | (Return chat_utils, _) =>
      let owned :=
        match request_user request with
        | Some u => of_user u
        | None => of_session (obtain_session_key request)
        end in
      let session_key :=
        match request_user request with
        | Some _ => None
        | None => Some (obtain_session_key request)
        end in
      let history :=
        firstn 10 (order_by timestamp (filter owned (chat_messages w))) in
      match generate_google_ai_response chat_utils user_message
              (map history_entry history) w with
      | (Return answer, w1) =>
          let row := new_chat_message request user_message answer session_key (now w1) in
          if ChatMessage_accepts row then
            (Return (JsonResponse
                       (JDict [ ("success", JBool true);
                                ("user_message", JStr user_message);
                                ("bot_response", json_of_optional_str answer);
                                ("timestamp", JStr (strftime_HM (now w1))) ]) ok),
             saved row w1)
          else (Raise (IntegrityError "constraint failed"), w1)
      | (Raise e, w1) => (Raise e, w1)
      end
  end.
Proof.
  intros Hform. unfold ChatView_post. rewrite Hform.
  unfold bind at 1.
  pose proof (init_keeps_world w) as Hinit.
  destruct (ChatBotUtils_init w) as [[chat_utils|e] w0]; simpl in Hinit; subst w0;
    [|reflexivity].
  unfold bind at 1, ChatView_post_history.
  destruct (request_user request) as [u|];
    (unfold bind at 1; rewrite history_run; unfold ret at 1;
     unfold bind at 1, try_except; cbv zeta;
     match goal with
     | |- context [generate_google_ai_response ?s ?m ?h ?v] =>
         destruct (generate_keeps_messages s m h v) as (answer & w1 & Hgen & _)
     end;
     rewrite Hgen; unfold bind, gets, ret, ChatMessage_save;
     destruct (ChatMessage_accepts _); reflexivity).
Qed.

(** [ChatView.get] renders chat/chat.html with all categories and at most
    twenty turns, each of them a stored turn of the requester: of the user
    when authenticated, under the session key the view goes on with (the
    requester's, or the one it has just created) otherwise. *)
Theorem chat_page_shows_only_own_turns (request : HttpRequest) (w : World) :
  exists turns,
    fst (ChatView_get request w)
    = Return (render "chat/chat.html" turns (categories w)) /\
    (List.length turns <= 20)%nat /\
    (forall row, In row turns ->
       In row (chat_messages w) /\
       match request_user request with
       | Some u => user row = Some u
       | None => session_key row = obtain_session_key request
       end).
Proof.
  unfold ChatView_get, ChatView_get_messages.
  destruct (request_user request) as [u|]; eexists;
    (split; [unfold bind; rewrite history_run; reflexivity|]);
    (split; [apply history_capped|]);
    intros row Hrow; apply history_owned in Hrow; destruct Hrow as [Hin Howned];
    (split; [exact Hin|]).
  - now apply of_user_true.
  - now apply of_session_true.
Qed.

(** Over a table whose turns satisfy the exclusive-or of user and session
    token, an anonymous visitor is never shown a turn of an authenticated
    user. *)
Theorem anonymous_page_hides_user_turns (request : HttpRequest) (w : World)
    (turns : list ChatMessage) :
  created_session_key request <> "" ->
  (forall row, In row (chat_messages w) -> identity_xor row) ->
  request_user request = None ->
  fst (ChatView_get_messages request w) = Return turns ->
  forall row, In row turns -> user row = None.
Proof.
  intros Hcreated Hxor Hanon Hrun row Hrow.
  unfold ChatView_get_messages in Hrun. rewrite Hanon, history_run in Hrun.
  cbn [fst] in Hrun. injection Hrun as <-.
  apply (history_owned (of_session (obtain_session_key request)) 20 w row) in Hrow.
  destruct Hrow as [Hin Howned].
  apply of_session_true in Howned.
  destruct (Hxor row Hin) as [[_ Hempty] | [Hnone _]]; [|exact Hnone].
  exfalso. apply (obtain_session_key_nonempty request Hcreated). congruence.
Qed.

(** Without a usable API key [ChatView.post] raises the [ValueError] of the
    constructor on a valid form, and stores and sends nothing. *)
Theorem post_without_api_key_raises (request : HttpRequest) (user_message : string)
    (w : World) :
  form_message request = Some user_message ->
  truthy_str (settings_GOOGLE_AI_API_KEY w) = None ->
  truthy_str (environ_GOOGLE_AI_API_KEY w) = None ->
  exists msg, ChatView_post request w = (Raise (ValueError msg), w).
Proof.
  intros Hform Hsettings Henviron.
  destruct (init_raises_without_key w Hsettings Henviron) as [msg Hinit].
  exists msg. rewrite (post_run request user_message w Hform). now rewrite Hinit.
Qed.

(** On a valid form, when [ChatView.post] answers, it has appended exactly
    one turn, and the answer shows what that turn stores: the message of the
    form and the reply, which is the adapter's own, never the apology of the
    [except] clause. *)
Theorem post_reply_is_what_is_stored (request : HttpRequest) (message : string)
    (response : HttpResponse) (w w' : World) :
  form_message request = Some message ->
  ChatView_post request w = (Return response, w') ->
  exists row,
    chat_messages w' = (chat_messages w ++ [row])%list /\
    user row = request_user request /\
    user_message row = message /\
    timestamp row = now w /\
    response = JsonResponse
                 (JDict [ ("success", JBool true);
                          ("user_message", JStr message);
                          ("bot_response", json_of_optional_str (bot_response row));
                          ("timestamp", JStr (strftime_HM (now w))) ]) ok /\
    exists chat_utils history w1,
      fst (ChatBotUtils_init w) = Return chat_utils /\
      generate_google_ai_response chat_utils message history w
      = (Return (bot_response row), w1).
Proof.
  intros Hform Hrun. rewrite (post_run request message w Hform) in Hrun.
  destruct (ChatBotUtils_init w) as [[chat_utils|e] w0] eqn:Hinit; [|discriminate].
  cbv zeta in Hrun.
  match type of Hrun with
  | context [generate_google_ai_response ?s ?m ?h ?v] =>
      destruct (generate_keeps_messages s m h v) as (answer & w1 & Hgen & Hmsgs & Hnow);
      rewrite Hgen in Hrun;
      set (history := h) in *
  end.
  destruct (ChatMessage_accepts _) eqn:Haccepts; [|discriminate].
  injection Hrun as <- <-.
  eexists. split; [simpl; rewrite Hmsgs; reflexivity|].
  split; [reflexivity|]. split; [reflexivity|].
  split; [exact Hnow|]. split; [simpl; now rewrite Hnow|].
  exists chat_utils, history, w1. split; [reflexivity | exact Hgen].
Qed.

End ViewExtras.

(** When a turn newer than all of the owner's stored turns is saved, the
    history query returns the owner's older turns in ascending order followed
    by the new one, cut to the limit: an owner who already has [limit] turns
    or more gets the same history as before, without the new turn. *)
Theorem newest_turn_shown_only_below_limit (owned : ChatMessage -> bool)
    (limit : nat) (row : ChatMessage) (w : World) :
  owned row = true ->
  (forall old, In old (chat_messages w) -> owned old = true ->
               timestamp old < timestamp row) ->
  let before := order_by timestamp (filter owned (chat_messages w)) in
  ChatMessage_history owned limit (saved row w)
  = (Return (firstn limit (before ++ [row])), saved row w) /\
  ((limit <= List.length before)%nat ->
   fst (ChatMessage_history owned limit (saved row w))
   = fst (ChatMessage_history owned limit w)) /\
  ((List.length before < limit)%nat ->
   fst (ChatMessage_history owned limit (saved row w)) = Return (before ++ [row])%list).
Proof.
  intros Hrow Holder before.
  assert (Hsorted : order_by timestamp (filter owned (chat_messages w ++ [row]))
                    = (before ++ [row])%list).
  { rewrite filter_app. simpl. rewrite Hrow.
    apply order_by_newest_last. intros old Hold.
    apply filter_In in Hold. now apply Holder. }
  assert (Hrun : ChatMessage_history owned limit (saved row w)
                 = (Return (firstn limit (before ++ [row])), saved row w)).
  { rewrite history_run. simpl chat_messages. now rewrite Hsorted. }
  split; [exact Hrun|]. rewrite Hrun, history_run. fold before. cbn [fst].
  split; intros Hlen; f_equal.
  - rewrite firstn_app.
    replace (limit - List.length before)%nat with 0%nat by lia.
    simpl. apply app_nil_r.
  - apply firstn_all2. rewrite length_app. simpl. lia.
Qed.

Section EndpointExtras.

Context `{Env}.

(** If the constructor found no model, [ChatView.post] still answers: the
    reply is the answer of the fallback engine to the message, and no prompt
    is sent. *)
Theorem post_without_model_answers_from_fallback (request : HttpRequest)
    (message : string) (chat_utils : ChatBotUtils) (response : HttpResponse)
    (w w' : World) :
  form_message request = Some message ->
  fst (ChatBotUtils_init w) = Return chat_utils ->
  model chat_utils = None ->
  ChatView_post request w = (Return response, w') ->
  exists answer,
    generate_fallback_response message w = (Return answer, w) /\
    response = JsonResponse
                 (JDict [ ("success", JBool true);
                          ("user_message", JStr message);
                          ("bot_response", json_of_optional_str answer);
                          ("timestamp", JStr (strftime_HM (now w))) ]) ok /\
    prompts_sent w' = prompts_sent w.
Proof.
  intros Hform Hinit Hnone Hrun.
  rewrite (post_run request message w Hform) in Hrun.
  destruct (ChatBotUtils_init w) as [[utils|e] w0]; [|discriminate].
  simpl in Hinit. injection Hinit as ->. cbv zeta in Hrun.
  rewrite (no_model_run _ _ _ _ Hnone) in Hrun.
  destruct (fallback_never_raises message w) as [answer Hanswer].
  rewrite Hanswer in Hrun.
  destruct (ChatMessage_accepts _); [|discriminate].
  injection Hrun as <- <-. exists answer. repeat split; assumption || reflexivity.
Qed.

(** The products-by-category endpoint answers 400 when the request gives
    neither a non-zero category id nor a non-empty category name, and a
    non-zero category id decides the answer alone: the category name sent
    along is not looked at. *)
Theorem category_selector_required_and_id_first (request other : HttpRequest)
    (w : World) :
  (truthy_int (body_category_id request) = None ->
   truthy_str (body_category_name request) = None ->
   ProductsByCategoryView_post request w
   = (Return (JsonResponse
                (JDict [ ("error", JStr "Se requiere category_id o category_name") ])
                400), w)) /\
  (forall wanted_id,
     truthy_int (body_category_id request) = Some wanted_id ->
     truthy_int (body_category_id other) = Some wanted_id ->
     ProductsByCategoryView_post request w = ProductsByCategoryView_post other w).
Proof.
  split.
  - intros Hid Hname. unfold ProductsByCategoryView_post. run. now rewrite Hid, Hname.
  - intros wanted_id Hhere Hthere. unfold ProductsByCategoryView_post. run.
    now rewrite Hhere, Hthere.
Qed.

Lemma compare_view_returns (request : HttpRequest) (w : World) :
  exists response w', CompareProductsView_post request w = (Return response, w').
Proof.
  unfold CompareProductsView_post, try_except, bind, ret, raise.
  destruct (requested_product_ids request) as [product_ids|]; [|eauto].
  destruct (len product_ids <? 2); [eauto|].
  destruct (ChatBotUtils_init w) as [[chat_utils|e] w0]; [|eauto].
  destruct (compare_products chat_utils product_ids w0) as [[text|e] w1]; eauto.
Qed.

(** [CompareProductsView.post] never raises: it always answers with a JSON
    payload.  The status is 400 exactly when the id list of the request (the
    list in the body, or the empty list when the body has no product_ids
    key) has fewer than two identifiers; it is 200 otherwise, errors of the
    constructor and of the comparison included, and also when the body holds
    null for product_ids: [len(None)] raises, and the view reports that
    error under status 200. *)
Theorem compare_view_never_raises (request : HttpRequest) (w : World) :
  exists data status w',
    CompareProductsView_post request w = (Return (JsonResponse data status), w') /\
    (forall listed, requested_product_ids request = Some listed ->
                    (List.length listed < 2)%nat -> status = 400) /\
    (forall listed, requested_product_ids request = Some listed ->
                    (2 <= List.length listed)%nat -> status = 200) /\
    (requested_product_ids request = None ->
     status = 200 /\ w' = w /\
     data = JDict [ ("success", JBool false);
                    ("error", JStr ("Error al comparar productos: "
                                    ++ "object of type 'NoneType' has no len()")) ]).
Proof.
  unfold CompareProductsView_post, try_except, bind, ret, raise.
  destruct (requested_product_ids request) as [product_ids|].
  - destruct (len product_ids <? 2) eqn:Hfew.
    + do 3 eexists. split; [reflexivity|].
      apply Z.ltb_lt in Hfew. unfold len in Hfew.
      split; [reflexivity|].
      split; [|discriminate].
      intros listed Heq Hmany. injection Heq as <-. lia.
    + apply Z.ltb_ge in Hfew. unfold len in Hfew.
      destruct (ChatBotUtils_init w) as [[chat_utils|e] w0];
        [destruct (compare_products chat_utils product_ids w0) as [[text|e] w1]|];
        do 3 eexists; (split; [reflexivity|]);
        (split; [intros listed Heq Hlt; injection Heq as <-; lia|]);
        (split; [reflexivity | discriminate]).
  - do 3 eexists. split; [reflexivity|].
    split; [discriminate|]. split; [discriminate|].
    intros _. repeat split.
Qed.

(** When [ChatBotUtils()] can be built (an API key is configured), a request
    that lists two identifiers or more of which fewer than two exist
    (unknown or repeated identifiers) is answered as a success, status 200,
    whose comparison text is the insufficient-products message. *)
Theorem compare_view_accepts_unresolved_ids (request : HttpRequest)
    (listed : list Z) (chat_utils : ChatBotUtils) (w : World) :
  requested_product_ids request = Some listed ->
  (2 <= List.length listed)%nat ->
  (List.length (filter (id__in listed) (products w)) < 2)%nat ->
  fst (ChatBotUtils_init w) = Return chat_utils ->
  CompareProductsView_post request w
  = (Return (JsonResponse
               (JDict [ ("success", JBool true);
                        ("comparison", JStr "Se necesitan al menos 2 productos para comparar") ])
               200), w).
Proof.
  intros Hbody Hlisted Hresolved Hinit.
  unfold CompareProductsView_post, try_except, bind, ret. rewrite Hbody.
  assert (Hge : (len listed <? 2) = false)
    by (apply Z.ltb_ge; unfold len; lia).
  rewrite Hge.
  pose proof (init_keeps_world w) as Hworld.
  destruct (ChatBotUtils_init w) as [[utils|e] w0]; [|discriminate].
  simpl in Hinit, Hworld. injection Hinit as ->. subst w0.
  now rewrite (compare_short_circuit _ _ _ Hresolved).
Qed.

(** The stock list holds one entry per available product, in table order,
    and none for a product marked unavailable; the request is not looked
    at, and nothing changes. *)
Theorem stock_list_holds_available_products (request : HttpRequest) (w : World) :
  exists listed,
    get_stock_list request w
    = (Return (JsonResponse (JDict [ ("products", JList (map stock_entry listed)) ]) 200),
       w) /\
    listed = filter is_available (products w) /\
    (forall p, In p listed <-> In p (products w) /\ is_available p = true).
Proof.
  eexists. split; [reflexivity|]. split; [reflexivity|].
  intros p. apply filter_In.
Qed.

End EndpointExtras.

(** ** The stock report *)

Lemma drawn_texts_app (a b : list canvas_op) :
  drawn_texts (a ++ b) = (drawn_texts a ++ drawn_texts b)%list.
Proof.
  induction a as [|op rest IH]; simpl; [reflexivity|].
  destruct op; simpl; now rewrite ?IH.
Qed.

Lemma stock_pdf_product_places (cursor : ReportCursor) (product : Product) :
  35 <= y_position cursor <= 750 ->
  35 <= y_position (snd (stock_pdf_product cursor product)) <= 750 /\
  forall x y text,
    In (x, y, text) (drawn_texts (fst (stock_pdf_product cursor product))) ->
    50 <= y <= 750.
Proof.
  intros Hy. unfold stock_pdf_product, break_page_below_50.
  destruct (category_changes product cursor).
  - destruct (y_position cursor - 20 <? 50) eqn:Hhead; simpl.
    + split; [lia|]. intros x y text [Heq | [Heq | []]]; injection Heq as <- <- <-; lia.
    + apply Z.ltb_ge in Hhead.
      destruct (y_position cursor - 20 - 15 <? 50) eqn:Hline; simpl.
      * split; [lia|].
        intros x y text [Heq | [Heq | []]]; injection Heq as <- <- <-; lia.
      * apply Z.ltb_ge in Hline. split; [lia|].
        intros x y text [Heq | [Heq | []]]; injection Heq as <- <- <-; lia.
  - destruct (y_position cursor <? 50) eqn:Hline; simpl.
    + split; [lia|]. intros x y text [Heq | []]; injection Heq as <- <- <-; lia.
    + apply Z.ltb_ge in Hline. split; [lia|].
      intros x y text [Heq | []]; injection Heq as <- <- <-; lia.
Qed.

Lemma stock_pdf_loop_places (products : list Product) (cursor : ReportCursor) :
  35 <= y_position cursor <= 750 ->
  forall x y text,
    In (x, y, text) (drawn_texts (stock_pdf_loop products cursor)) -> 50 <= y <= 750.
Proof.
  revert cursor. induction products as [|product rest IH]; intros cursor Hy x y text Hin;
    simpl in Hin; [contradiction|].
  destruct (stock_pdf_product_places cursor product Hy) as [Hnext Hhere].
  destruct (stock_pdf_product cursor product) as [ops next]. simpl in *.
  rewrite drawn_texts_app in Hin. apply in_app_or in Hin.
  destruct Hin as [Hin | Hin]; [now apply (Hhere x y text) | now apply (IH next Hnext x y text)].
Qed.







Section ReportExtras.

Context `{Env} `{ReportEnv}.

(** [generate_stock_pdf] never raises and changes nothing, and every text of
    the document is drawn at a height between 50 and 750, whatever the
    number of products and of categories. *)
Theorem stock_pdf_text_stays_on_page (self : ChatBotUtils) (w : World) :
  exists ops,
    generate_stock_pdf self w = (Return ops, w) /\
    forall x y text, In (x, y, text) (drawn_texts ops) -> 50 <= y <= 750.
Proof.
  eexists. split; [reflexivity|].
  intros x y text Hin. simpl in Hin.
  destruct Hin as [Heq | [Heq | Hin]]; try (injection Heq as <- <- <-; lia).
  rewrite drawn_texts_app in Hin. apply in_app_or in Hin.
  destruct Hin as [Hin | Hin]; [|simpl in Hin; contradiction].
  eapply stock_pdf_loop_places; [|exact Hin]. simpl. lia.
Qed.




(** [chat_action] answers a compare_products action exactly as
    [CompareProductsView.post] answers the request, a download_pdf action as
    [GenerateStockPDFView.get] does, and any other action, or none, with
    "Acción no reconocida." and no effect. *)
Theorem chat_action_dispatch (action : option string) (request : HttpRequest)
    (w : World) :
  (action = Some "download_pdf" ->
   chat_action action request w = GenerateStockPDFView_get request w) /\
  (action = Some "compare_products" ->
   exists response w',
     CompareProductsView_post request w = (Return response, w') /\
     chat_action action request w = (Return (Plain response), w')) /\
  (action_is "download_pdf" action = false ->
   action_is "compare_products" action = false ->
   chat_action action request w
   = (Return (Plain (JsonResponse (JDict [ ("response", JStr "Acción no reconocida.") ])
                       200)), w)).
Proof.
  split; [|split].
  - intros ->. reflexivity.
  - intros ->.
    destruct (compare_view_returns request w) as (response & w' & Hrun).
    exists response, w'. split; [exact Hrun|].
    unfold chat_action.
    change (action_is "download_pdf" (Some "compare_products")) with false.
    change (action_is "compare_products" (Some "compare_products")) with true.
    cbv iota. unfold bind.
    assert (Hsame : CompareProductsView_post (with_product_ids_only request) w
                    = CompareProductsView_post request w).
    { assert (Hids : requested_product_ids (with_product_ids_only request)
                     = requested_product_ids request)
        by (unfold with_product_ids_only; cbv [requested_product_ids body_product_ids];
            destruct request as [? ? ? ? ? ? [| |ids]]; reflexivity).
      unfold CompareProductsView_post. now rewrite Hids. }
    now rewrite Hsame, Hrun.
  - intros Hpdf Hcompare. unfold chat_action. now rewrite Hpdf, Hcompare.
Qed.

End ReportExtras.

(** The turns [ChatView.post] hands to the adapter as context are the first
    ten of the twenty turns that [ChatView.get] shows the same requester:
    the oldest ones. *)
Theorem ai_context_is_oldest_ten_of_page (request : HttpRequest) (w : World) :
  exists shown context session_key,
    ChatView_get_messages request w = (Return shown, w) /\
    ChatView_post_history request w
    = (Return (context, session_key), w) /\
    context = firstn 10 shown /\
    map history_entry context = firstn 10 (map history_entry shown).
Proof.
  unfold ChatView_get_messages, ChatView_post_history.
  destruct (request_user request) as [u|]; do 3 eexists;
    (split; [apply history_run|]);
    (split; [unfold bind; rewrite history_run; reflexivity|]);
    (split; [now rewrite firstn_firstn | now rewrite firstn_map, firstn_firstn]).
Qed.

Section AgreementExtras.

Context `{Env}.

(** The chat and the products-by-category endpoint agree on Computadoras:
    the products the fallback engine lists for a message about computadoras
    are the ones the endpoint returns for the category name "computadora",
    in the same order. *)
Theorem chat_and_endpoint_agree_on_computadoras (user_message : string)
    (request : HttpRequest) (w : World) :
  mentions category_words (str_lower user_message) = true ->
  contains "computadora" (str_lower user_message) = true ->
  truthy_int (body_category_id request) = None ->
  truthy_str (body_category_name request) = Some "computadora" ->
  exists listed,
    ProductsByCategoryView_post request w = (Return (products_response listed), w) /\
    generate_fallback_response user_message w
    = (Return (Some (if exists_ listed then computadoras_listing listed
                     else computadoras_empty)), w).
Proof.
  intros Hcat Hcomputadora Hid Hname.
  exists (filter (fun p => icontains "computadora" (category_name (category p))
                           && is_available p) (products w)).
  split.
  - unfold ProductsByCategoryView_post. run. now rewrite Hid, Hname.
  - rewrite fallback_cases. simpl. rewrite Hcat.
    rewrite (guarded_return _ _ _ _ (category_branch_run _ w)).
    now rewrite Hcomputadora.
Qed.

End AgreementExtras.

(** ** The further properties on sample data *)

Lemma fallback_answers_text_over_nonempty_catalog_witness :
  let w := store [laptop_x] [computadoras] [] failing_model in
  products w <> [] /\
  exists text,
    generate_fallback_response "stock" w = (Return (Some text), w) /\ text <> "".
Proof.
  intros w.
  assert (Hsome : products w <> []) by discriminate.
  split; [exact Hsome|].
  apply (fallback_answers_text_over_nonempty_catalog "stock" w Hsome).
Defined.

Lemma stock_question_lists_top_three_witness :
  let w := store [televisor; camisa; abrigo_agotado; laptop_x] [computadoras; ropa] []
             failing_model in
  mentions stock_words (str_lower "¿cuántas unidades hay?") = true /\
  products w <> [] /\
  exists top others,
    generate_fallback_response "¿cuántas unidades hay?" w
    = (Return (Some (stock_listing top)), w) /\
    Permutation (top ++ others) (products w) /\
    List.length top = Nat.min 3 (List.length (products w)) /\
    StronglySorted (fun a b => stock b <= stock a) top /\
    (forall p q, In p top -> In q others -> stock q <= stock p).
Proof.
  intros w.
  assert (Hstock : mentions stock_words (str_lower "¿cuántas unidades hay?") = true)
    by reflexivity.
  assert (Hsome : products w <> []) by discriminate.
  split; [exact Hstock|]. split; [exact Hsome|].
  apply (stock_question_lists_top_three "¿cuántas unidades hay?" w);
    [reflexivity | reflexivity | reflexivity | reflexivity | exact Hstock | exact Hsome].
Defined.

Lemma general_greeting_features_available_products_witness :
  let w := store [televisor; abrigo_agotado] [computadoras; ropa] [] failing_model in
  (forall rows, Permutation (random_order rows) rows) /\
  mentions stock_words (str_lower "buenas tardes") = false /\
  exists featured,
    generate_fallback_response "buenas tardes" w
    = (Return (Some (general_greeting 2 2 featured)), w) /\
    (List.length featured <= 3)%nat /\
    (forall p, In p featured -> In p (products w) /\ is_available p = true).
Proof.
  intros w.
  assert (Hperm : forall rows, Permutation (random_order rows) rows)
    by (intros rows; apply Permutation_refl).
  split; [exact Hperm|]. split; [reflexivity|].
  apply (general_greeting_features_available_products "buenas tardes" w Hperm);
    reflexivity.
Defined.

Lemma generate_returns_stripped_model_text_witness :
  let w := store [laptop_x] [computadoras] [] answering_model in
  let prompt := google_ai_prompt (map product_dict (products w))
                  (map category_dict (categories w)) "hola" in
  model (utils_with answering_model) = Some answering_model /\
  generate_content answering_model prompt (Some generation_config)
  = Return " Con gusto te ayudo. " /\
  generate_google_ai_response (utils_with answering_model) "hola" [] w
  = (Return (Some (str_strip " Con gusto te ayudo. ")), sent prompt w).
Proof.
  intros w prompt. split; [reflexivity|]. split; [reflexivity|].
  apply (generate_returns_stripped_model_text (utils_with answering_model)
           answering_model "hola" " Con gusto te ayudo. " [] w eq_refl eq_refl).
Defined.

Lemma generate_without_model_uses_fallback_witness :
  let self := {| api_key := "clave-de-prueba"; model := None |} in
  let w := store [laptop_x] [computadoras] [] failing_model in
  model self = None /\
  exists answer,
    generate_google_ai_response self "hola" [] w = (Return answer, w) /\
    generate_fallback_response "hola" w = (Return answer, w).
Proof.
  intros self w. split; [reflexivity|].
  apply (generate_without_model_uses_fallback self "hola" [] w eq_refl).
Defined.

Lemma compare_outcomes_with_two_resolved_witness :
  let w := store [laptop_x; camisa; televisor] [computadoras; ropa] [] answering_model in
  let product_ids := [1; 3] in
  let prompt :=
    comparison_prompt (map comparison_row (filter (id__in product_ids) (products w))) in
  (2 <= List.length (filter (id__in product_ids) (products w)))%nat /\
  compare_products (utils_with answering_model) product_ids w
  = (Return (str_strip " Con gusto te ayudo. "), sent prompt w).
Proof.
  intros w product_ids prompt.
  assert (Henough : (2 <= List.length (filter (id__in product_ids) (products w)))%nat)
    by (simpl; lia).
  split; [exact Henough|].
  apply (compare_outcomes_with_two_resolved (utils_with answering_model) product_ids w
           Henough).
Defined.

Lemma compare_ignores_order_and_repetition_witness :
  let w := store [laptop_x; camisa; televisor] [computadoras; ropa] [] answering_model in
  let product_ids := [1; 3] in
  let other_ids := [3; 1; 1] in
  (forall n, In n product_ids <-> In n other_ids) /\
  compare_products (utils_with answering_model) product_ids w
  = compare_products (utils_with answering_model) other_ids w.
Proof.
  intros w product_ids other_ids.
  assert (Hsame : forall n, In n product_ids <-> In n other_ids)
    by (intros n; simpl; tauto).
  split; [exact Hsame|].
  apply (compare_ignores_order_and_repetition (utils_with answering_model)
           product_ids other_ids w Hsame).
Defined.

Lemma list_available_models_never_raises_witness :
  let w := without_models (store [] [] [] failing_model) in
  genai_list_models w = Raise (ServiceError "503 unavailable") /\
  exists names, list_available_models w = (Return names, w) /\ names = ["gemini-pro"].
Proof.
  intros w. split; [reflexivity|].
  destruct (list_available_models_never_raises w) as (names & Hrun & Hfailed & _).
  exists names. split; [exact Hrun|].
  apply (Hfailed (ServiceError "503 unavailable")). reflexivity.
Defined.


Lemma init_keeps_first_model_that_loads_witness :
  let w := store [] [] [] answering_model in
  let self := {| api_key := "clave-de-prueba"; model := Some answering_model |} in
  ChatBotUtils_init w = (Return self, w) /\
  genai_GenerativeModel w "models/gemini-pro-latest" = Return answering_model /\
  model self = Some answering_model.
Proof.
  intros w self.
  assert (Hrun : ChatBotUtils_init w = (Return self, w)) by reflexivity.
  split; [exact Hrun|]. split; [reflexivity|].
  apply (proj1 (init_keeps_first_model_that_loads w w self Hrun) answering_model).
  reflexivity.
Defined.

Lemma anonymous_page_hides_user_turns_witness :
  let request := request_of None (Some "abc") None in
  let w := store [] [] [turn (Some 7) "" "de un usuario" 10; turn None "abc" "anónimo" 15]
             failing_model in
  let turns := [turn None "abc" "anónimo" 15] in
  created_session_key request <> "" /\
  (forall row, In row (chat_messages w) -> identity_xor row) /\
  request_user request = None /\
  fst (ChatView_get_messages request w) = Return turns /\
  forall row, In row turns -> user row = None.
Proof.
  intros request w turns.
  assert (Hcreated : created_session_key request <> "") by discriminate.
  assert (Hxor : forall row, In row (chat_messages w) -> identity_xor row).
  { intros row [<- | [<- | []]].
    - left. split; [discriminate | reflexivity].
    - right. split; [reflexivity | discriminate]. }
  assert (Hrun : fst (ChatView_get_messages request w) = Return turns) by reflexivity.
  split; [exact Hcreated|]. split; [exact Hxor|]. split; [reflexivity|].
  split; [exact Hrun|].
  apply (anonymous_page_hides_user_turns request w turns Hcreated Hxor eq_refl Hrun).
Defined.

Lemma post_without_api_key_raises_witness :
  let request := request_of None None (Some "hola") in
  let w := without_api_key (store [laptop_x] [computadoras] [] answering_model) in
  form_message request = Some "hola" /\
  truthy_str (settings_GOOGLE_AI_API_KEY w) = None /\
  truthy_str (environ_GOOGLE_AI_API_KEY w) = None /\
  exists msg, ChatView_post request w = (Raise (ValueError msg), w).
Proof.
  intros request w. split; [reflexivity|]. split; [reflexivity|]. split; [reflexivity|].
  apply (post_without_api_key_raises request "hola" w eq_refl eq_refl eq_refl).
Defined.

Lemma post_reply_is_what_is_stored_witness :
  let request := request_of (Some 7) None (Some "hola") in
  let w := store [laptop_x] [computadoras] [] answering_model in
  let response :=
    JsonResponse (JDict [ ("success", JBool true);
                          ("user_message", JStr "hola");
                          ("bot_response", JStr "Con gusto te ayudo.");
                          ("timestamp", JStr "12:34") ]) ok in
  let w' := snd (ChatView_post request w) in
  form_message request = Some "hola" /\
  ChatView_post request w = (Return response, w') /\
  exists row,
    chat_messages w' = (chat_messages w ++ [row])%list /\
    user row = Some 7 /\
    user_message row = "hola" /\
    timestamp row = 45296.
Proof.
  intros request w response w'.
  assert (Hrun : ChatView_post request w = (Return response, w'))
    by (vm_compute; reflexivity).
  split; [reflexivity|]. split; [exact Hrun|].
  destruct (post_reply_is_what_is_stored request "hola" response w w' eq_refl Hrun)
    as (row & Hadded & Huser & Hmessage & Htime & _).
  exists row. repeat split; assumption.
Defined.

Lemma post_without_model_answers_from_fallback_witness :
  let request := request_of None (Some "abc") (Some "contraseña") in
  let w := without_models (store [laptop_x] [computadoras] [] failing_model) in
  let chat_utils := {| api_key := "clave-de-prueba"; model := None |} in
  let response :=
    JsonResponse (JDict [ ("success", JBool true);
                          ("user_message", JStr "contraseña");
                          ("bot_response", JStr account_help);
                          ("timestamp", JStr "12:34") ]) ok in
  let w' := snd (ChatView_post request w) in
  fst (ChatBotUtils_init w) = Return chat_utils /\
  ChatView_post request w = (Return response, w') /\
  exists answer,
    generate_fallback_response "contraseña" w = (Return answer, w) /\
    prompts_sent w' = prompts_sent w.
Proof.
  intros request w chat_utils response w'.
  assert (Hinit : fst (ChatBotUtils_init w) = Return chat_utils) by reflexivity.
  assert (Hrun : ChatView_post request w = (Return response, w'))
    by (vm_compute; reflexivity).
  split; [exact Hinit|]. split; [exact Hrun|].
  destruct (post_without_model_answers_from_fallback request "contraseña" chat_utils
              response w w' eq_refl Hinit eq_refl Hrun)
    as (answer & Hanswer & _ & Hsent).
  exists answer. split; assumption.
Defined.

Lemma newest_turn_shown_only_below_limit_witness :
  let w := store [] [] [turn (Some 7) "" "primero" 10; turn (Some 7) "" "segundo" 20]
             failing_model in
  let row := turn (Some 7) "" "tercero" 30 in
  of_user 7 row = true /\
  (forall old, In old (chat_messages w) -> of_user 7 old = true ->
               timestamp old < timestamp row) /\
  fst (ChatMessage_history (of_user 7) 2 (saved row w))
  = fst (ChatMessage_history (of_user 7) 2 w) /\
  fst (ChatMessage_history (of_user 7) 5 (saved row w))
  = Return [turn (Some 7) "" "primero" 10; turn (Some 7) "" "segundo" 20; row].
Proof.
  intros w row.
  assert (Howned : of_user 7 row = true) by reflexivity.
  assert (Holder : forall old, In old (chat_messages w) -> of_user 7 old = true ->
                               timestamp old < timestamp row).
  { intros old [<- | [<- | []]] _; simpl; lia. }
  split; [exact Howned|]. split; [exact Holder|].
  split.
  - apply (proj1 (proj2 (newest_turn_shown_only_below_limit (of_user 7) 2 row w
                           Howned Holder))).
    simpl. lia.
  - apply (proj2 (proj2 (newest_turn_shown_only_below_limit (of_user 7) 5 row w
                           Howned Holder))).
    simpl. lia.
Defined.

Lemma category_selector_required_and_id_first_witness :
  let w := store [camisa; laptop_x] [computadoras; ropa] [] failing_model in
  let request := json_request (Some 2) (Some "computadoras") None in
  let other := json_request (Some 2) None None in
  let bare := json_request (Some 0) (Some "") None in
  truthy_int (body_category_id bare) = None /\
  truthy_str (body_category_name bare) = None /\
  ProductsByCategoryView_post bare w
  = (Return (JsonResponse
               (JDict [ ("error", JStr "Se requiere category_id o category_name") ])
               400), w) /\
  truthy_int (body_category_id request) = Some 2 /\
  ProductsByCategoryView_post request w = ProductsByCategoryView_post other w.
Proof.
  intros w request other bare.
  split; [reflexivity|]. split; [reflexivity|].
  split.
  - apply (proj1 (category_selector_required_and_id_first bare bare w)); reflexivity.
  - split; [reflexivity|].
    apply (proj2 (category_selector_required_and_id_first request other w) 2);
      reflexivity.
Defined.

Lemma compare_view_never_raises_witness :
  let w := store [laptop_x; camisa; televisor] [computadoras; ropa] [] failing_model in
  let request := json_request None None (Some [1; 3]) in
  let listed := [1; 3] in
  requested_product_ids request = Some listed /\
  (2 <= List.length listed)%nat /\
  requested_product_ids null_ids_request = None /\
  (exists data w',
     CompareProductsView_post request w = (Return (JsonResponse data 200), w')) /\
  CompareProductsView_post null_ids_request w
  = (Return (JsonResponse
               (JDict [ ("success", JBool false);
                        ("error", JStr ("Error al comparar productos: "
                                        ++ "object of type 'NoneType' has no len()")) ])
               200), w).
Proof.
  intros w request listed.
  assert (Hbody : requested_product_ids request = Some listed) by reflexivity.
  assert (Hlisted : (2 <= List.length listed)%nat) by (simpl; lia).
  assert (Hnull : requested_product_ids null_ids_request = None) by reflexivity.
  split; [exact Hbody|]. split; [exact Hlisted|]. split; [exact Hnull|].
  split.
  - destruct (compare_view_never_raises request w)
      as (data & status & w' & Hrun & _ & Hok & _).
    exists data, w'. rewrite Hrun, (Hok listed Hbody Hlisted). reflexivity.
  - destruct (compare_view_never_raises null_ids_request w)
      as (data & status & w' & Hrun & _ & _ & Hnone).
    destruct (Hnone Hnull) as (-> & -> & ->). exact Hrun.
Defined.

Lemma compare_view_accepts_unresolved_ids_witness :
  let w := store [laptop_x; camisa] [computadoras; ropa] [] answering_model in
  let request := json_request None None (Some [1; 1]) in
  let listed := [1; 1] in
  requested_product_ids request = Some listed /\
  (2 <= List.length listed)%nat /\
  (List.length (filter (id__in listed) (products w)) < 2)%nat /\
  fst (ChatBotUtils_init w) = Return (utils_with answering_model) /\
  CompareProductsView_post request w
  = (Return (JsonResponse
               (JDict [ ("success", JBool true);
                        ("comparison", JStr "Se necesitan al menos 2 productos para comparar") ])
               200), w).
Proof.
  intros w request listed.
  assert (Hbody : requested_product_ids request = Some listed) by reflexivity.
  assert (Hlisted : (2 <= List.length listed)%nat) by (simpl; lia).
  assert (Hresolved : (List.length (filter (id__in listed) (products w)) < 2)%nat)
    by (simpl; lia).
  assert (Hinit : fst (ChatBotUtils_init w) = Return (utils_with answering_model))
    by reflexivity.
  split; [exact Hbody|]. split; [exact Hlisted|]. split; [exact Hresolved|].
  split; [exact Hinit|].
  apply (compare_view_accepts_unresolved_ids request listed (utils_with answering_model) w
           Hbody Hlisted Hresolved Hinit).
Defined.

Lemma chat_action_dispatch_witness :
  let w := store [laptop_x; camisa] [computadoras; ropa] [] answering_model in
  let request := json_request None None (Some [1]) in
  action_is "download_pdf" (Some "saludar") = false /\
  action_is "compare_products" (Some "saludar") = false /\
  chat_action (Some "saludar") request w
  = (Return (Plain (JsonResponse (JDict [ ("response", JStr "Acción no reconocida.") ])
                      200)), w) /\
  exists response w',
    CompareProductsView_post request w = (Return response, w') /\
    chat_action (Some "compare_products") request w = (Return (Plain response), w').
Proof.
  intros w request. split; [reflexivity|]. split; [reflexivity|].
  split.
  - apply (proj2 (proj2 (chat_action_dispatch (Some "saludar") request w)));
      reflexivity.
  - apply (proj1 (proj2 (chat_action_dispatch (Some "compare_products") request w))).
    reflexivity.
Defined.

(** A stock report of fifty shirts without an API key: the basic report
    breaks the page once, after the forty-seventh line. *)
Lemma basic_report_of_fifty_shirts_breaks_once :
  match fst (GenerateStockPDFView_get (json_request None None None)
               (without_api_key (store (shirts 50) [ropa] [] failing_model))) with
  | Return (Pdf _ ops) =>
      List.length (filter (fun op => match op with showPage => true | _ => false end) ops)
  | _ => 0%nat
  end = 1%nat.
Proof. vm_compute. reflexivity. Qed.

Lemma chat_and_endpoint_agree_on_computadoras_witness :
  let w := store [televisor; camisa; laptop_x] [computadoras; ropa] [] failing_model in
  let request := json_request None (Some "computadora") None in
  mentions category_words (str_lower "¿Qué COMPUTADORAS tienen?") = true /\
  contains "computadora" (str_lower "¿Qué COMPUTADORAS tienen?") = true /\
  exists listed,
    ProductsByCategoryView_post request w = (Return (products_response listed), w) /\
    generate_fallback_response "¿Qué COMPUTADORAS tienen?" w
    = (Return (Some (if exists_ listed then computadoras_listing listed
                     else computadoras_empty)), w).
Proof.
  intros w request. split; [reflexivity|]. split; [reflexivity|].
  apply (chat_and_endpoint_agree_on_computadoras "¿Qué COMPUTADORAS tienen?" request w);
    reflexivity.
Defined.
